(** * psycopg2 Xid objects: a model of [psycopg/xid_type.c]

    The file embeds the Xid type of psycopg2 (construction and validation,
    the conversion to and from the PostgreSQL transaction id string, the
    sequence protocol and [tpc_recover]) and proves properties of it.

    Python strings of the interpreter the file is written for (Python 2
    [str]) are byte strings: they are [string] here, a list of 8-bit
    [ascii].  The Xid objects live in a store indexed by address, because
    the C code creates an object and then assigns its fields in place.

    Memory allocation and the imports of [base64] and [re] are taken to
    succeed, and reference counts are left out. *)

From Stdlib Require Import ZArith Lia String Ascii DecimalString DecimalZ.
From stdpp Require Import base list strings.

Local Open Scope Z_scope.

(** ** Bytes and C strings *)

Definition ord (c : ascii) : Z := Z.of_N (N_of_ascii c).
Definition chr (z : Z) : ascii := ascii_of_N (Z.to_N z).

(** The value of a [char] read from a [const char *]: [char] is signed on
    the platforms psycopg2 is built for.  ([printable_unsigned] below shows
    that the test of [xid_init] accepts the same bytes where it is not.) *)
Definition c_char (c : ascii) : Z :=
  if 128 <=? ord c then ord c - 256 else ord c.

Definition NUL : ascii := "000"%char.

Definition is_nul (c : ascii) : bool := ord c =? 0.

(** What a C function sees of the buffer of a Python string: the bytes
    before the first NUL. *)
Fixpoint c_str (s : string) : string :=
  match s with
  | EmptyString => EmptyString
  | String c rest => if is_nul c then EmptyString else String c (c_str rest)
  end.

(** [strlen].  The code keeps it in an [int]: the model takes the strings
    to be shorter than 2^31 bytes, for which that is exact. *)
Definition strlen (s : string) : Z := Z.of_nat (String.length (c_str s)).

Fixpoint string_forallb (p : ascii -> bool) (s : string) : bool :=
  match s with
  | EmptyString => true
  | String c rest => p c && string_forallb p rest
  end.

Definition no_nul (s : string) : bool := string_forallb (fun c => negb (is_nul c)) s.

(** ** Python library functions the file calls *)

(** [PyString_Format] with [%d] on an integer, and [int(s)] on a string of
    decimal digits (all the regular expression lets through). *)
Definition format_d (z : Z) : string := NilZero.string_of_int (Z.to_int z).

Definition int_of_digits (s : string) : option Z :=
  match NilEmpty.uint_of_string s with
  | Some d => Some (Z.of_uint d)
  | None => None
  end.

(** *** base64.b64encode: the standard alphabet, with padding *)

Definition table_b2a_base64 : string :=
  "ABCDEFGHIJKLMNOPQRSTUVWXYZabcdefghijklmnopqrstuvwxyz0123456789+/".

Definition BASE64_PAD : ascii := "="%char.

Definition b2a (v : Z) : ascii :=
  match String.get (Z.to_nat v) table_b2a_base64 with
  | Some c => c
  | None => BASE64_PAD
  end.

(** The four 6-bit values that three bytes [a], [b], [c] are cut into. *)
Definition sextet1 (a : Z) : Z := Z.shiftr a 2.
Definition sextet2 (a b : Z) : Z := Z.lor (Z.shiftl (Z.land a 3) 4) (Z.shiftr b 4).
Definition sextet3 (b c : Z) : Z := Z.lor (Z.shiftl (Z.land b 15) 2) (Z.shiftr c 6).
Definition sextet4 (c : Z) : Z := Z.land c 63.

(** Three bytes give four characters; one or two bytes left at the end give
    two or three characters and the pad. *)
Fixpoint b64encode (s : string) : string :=
  match s with
  | EmptyString => EmptyString
  | String x EmptyString =>
      let a := ord x in
      String (b2a (sextet1 a))
        (String (b2a (Z.shiftl (Z.land a 3) 4))
           (String BASE64_PAD (String BASE64_PAD EmptyString)))
  | String x (String y EmptyString) =>
      let a := ord x in
      let b := ord y in
      String (b2a (sextet1 a))
        (String (b2a (sextet2 a b))
           (String (b2a (Z.shiftl (Z.land b 15) 2))
              (String BASE64_PAD EmptyString)))
  | String x (String y (String z rest)) =>
      let a := ord x in
      let b := ord y in
      let c := ord z in
      String (b2a (sextet1 a))
        (String (b2a (sextet2 a b))
           (String (b2a (sextet3 b c))
              (String (b2a (sextet4 c)) (b64encode rest))))
  end.

(** *** base64.b64decode: binascii.a2b_base64

    The decoder of the interpreter is lenient: bytes outside the alphabet
    are skipped, a pad ends the input once two characters of a quad have
    been read, and the only error is a last quad left with bits that fill
    no byte. *)

Definition table_a2b_base64 (c : ascii) : option Z :=
  let n := ord c in
  if (65 <=? n) && (n <=? 90) then Some (n - 65)
  else if (97 <=? n) && (n <=? 122) then Some (n - 71)
  else if (48 <=? n) && (n <=? 57) then Some (n + 4)
  else if n =? 43 then Some 62
  else if n =? 47 then Some 63
  else if n =? 61 then Some 0
  else None.

(** The [(num+1)]-th character of [s] that the table knows, if any. *)
Fixpoint binascii_find_valid (s : string) (num : nat) : option ascii :=
  match s with
  | EmptyString => None
  | String c rest =>
      if (ord c <=? 127) && bool_decide (is_Some (table_a2b_base64 c)) then
        match num with
        | O => Some c
        | S num' => binascii_find_valid rest num'
        end
      else binascii_find_valid rest num
  end.

Definition a2b_skipped (c : ascii) : bool :=
  (127 <? ord c) || (ord c =? 13) || (ord c =? 10) || (ord c =? 32).

(** The loop of [a2b_base64]: the decoded bytes and the final [leftbits]. *)
Fixpoint a2b_loop (quad_pos leftbits leftchar : Z) (s : string) : string * Z :=
  match s with
  | EmptyString => (EmptyString, leftbits)
  | String this_ch rest =>
      if a2b_skipped this_ch then a2b_loop quad_pos leftbits leftchar rest
      else if Ascii.eqb this_ch BASE64_PAD then
        if (quad_pos <? 2)
           || ((quad_pos =? 2)
               && negb (bool_decide (binascii_find_valid s 1 = Some BASE64_PAD)))
        then a2b_loop quad_pos leftbits leftchar rest
        else (EmptyString, 0)
      else
        match table_a2b_base64 this_ch with
        | None => a2b_loop quad_pos leftbits leftchar rest
        | Some v =>
            let quad_pos := Z.land (quad_pos + 1) 3 in
            let leftchar := Z.lor (Z.shiftl leftchar 6) v in
            let leftbits := leftbits + 6 in
            if 8 <=? leftbits then
              let leftbits := leftbits - 8 in
              let byte := chr (Z.land (Z.shiftr leftchar leftbits) 255) in
              let leftchar := Z.land leftchar (Z.shiftl 1 leftbits - 1) in
              let '(out, final) := a2b_loop quad_pos leftbits leftchar rest in
              (String byte out, final)
            else a2b_loop quad_pos leftbits leftchar rest
        end
  end.

(** [None] stands for the exception ("Incorrect padding"). *)
Definition b64decode (s : string) : option string :=
  let '(out, leftbits) := a2b_loop 0 0 0 s in
  if leftbits =? 0 then Some out else None.

(** *** The regular expression compiled by [_xid_get_parse_regex]

    The pattern is anchored at both ends and has three groups: one or more
    decimal digits, then, after an underscore each, two runs of characters
    other than the underscore.  [span p s] is the longest prefix of [s]
    whose characters satisfy [p], and what follows it: what a greedy group
    takes. *)

Definition xid_regex_pattern : string := "^(\d+)_([^_]*)_([^_]*)$".

Definition is_digit (c : ascii) : bool := (48 <=? ord c) && (ord c <=? 57).
Definition is_underscore (c : ascii) : bool := ord c =? 95.
Definition not_underscore (c : ascii) : bool := negb (is_underscore c).

Fixpoint span (p : ascii -> bool) (s : string) : string * string :=
  match s with
  | EmptyString => (EmptyString, EmptyString)
  | String c rest =>
      if p c then let '(tok, tl) := span p rest in (String c tok, tl)
      else (EmptyString, s)
  end.

(** [regex.match(s)]: the three groups, or [None] when there is no match.
    Nothing can be given back by a group to make a later part match: the
    character after a greedy group is the first one the group refuses. *)
Definition xid_regex_match (s : string) : option (string * string * string) :=
  let '(g1, r1) := span is_digit s in
  match g1, r1 with
  | String _ _, String u1 r2 =>
      if is_underscore u1 then
        let '(g2, r3) := span not_underscore r2 in
        match r3 with
        | String u2 r4 =>
            let '(g3, r5) := span not_underscore r4 in
            match r5 with
            | EmptyString => Some (g1, g2, g3)
            | String _ _ => None
            end
        | EmptyString => None
        end
      else None
  | _, _ => None
  end.

(** ** Python objects, exceptions and the object store *)

Definition addr := nat.

(** The Python values the file reads and builds.  [PyInt] is an integer
    of either kind, [int] or [long]; [PyString] is a [str]; [PyXid a] is a
    reference to the Xid object at address [a].  [PyOpaque] is an object
    of another type that is no number, is no string of either kind and has
    no buffer interface (a [datetime] in the [prepared] column): what
    [re], [int], [base64] and the argument parser refuse with [TypeError].
    [unicode] objects and buffers, which these read like a string, are not
    among the values of the model: nothing below is said of them. *)
Inductive PyObject : Type :=
| Py_None
| PyInt (z : Z)
| PyString (s : string)
| PyXid (a : addr)
| PyOpaque (tag : string).

Inductive exc_class : Type :=
| PyExc_ValueError
| PyExc_TypeError
| PyExc_OverflowError
| PyExc_IndexError
| PyExc_AttributeError
| PyExc_SystemError
| PyExc_DatabaseError.

(** An exception: its class, and its message where this file sets it
    ([None] where the interpreter or a library words it). *)
Record exn : Type := Exception { exc_type : exc_class; exc_msg : option string }.

Definition ValueError (msg : string) : exn := Exception PyExc_ValueError (Some msg).
Definition TypeError (msg : string) : exn := Exception PyExc_TypeError (Some msg).
Definition IndexError (msg : string) : exn := Exception PyExc_IndexError (Some msg).

Record XidObject : Type := mkXid {
  format_id : PyObject;
  gtrid : PyObject;
  bqual : PyObject;
  prepared : PyObject;
  owner : PyObject;
  database : PyObject
}.

Inductive field : Type :=
| F_format_id | F_gtrid | F_bqual | F_prepared | F_owner | F_database.

Definition get_field (f : field) (x : XidObject) : PyObject :=
  match f with
  | F_format_id => format_id x
  | F_gtrid => gtrid x
  | F_bqual => bqual x
  | F_prepared => prepared x
  | F_owner => owner x
  | F_database => database x
  end.

Definition set_field (f : field) (v : PyObject) (x : XidObject) : XidObject :=
  match f with
  | F_format_id => mkXid v (gtrid x) (bqual x) (prepared x) (owner x) (database x)
  | F_gtrid => mkXid (format_id x) v (bqual x) (prepared x) (owner x) (database x)
  | F_bqual => mkXid (format_id x) (gtrid x) v (prepared x) (owner x) (database x)
  | F_prepared => mkXid (format_id x) (gtrid x) (bqual x) v (owner x) (database x)
  | F_owner => mkXid (format_id x) (gtrid x) (bqual x) (prepared x) v (database x)
  | F_database => mkXid (format_id x) (gtrid x) (bqual x) (prepared x) (owner x) v
  end.

Definition is_metadata (f : field) : bool :=
  match f with
  | F_prepared | F_owner | F_database => true
  | _ => false
  end.

(** What the functions do that a caller can observe besides their result:
    a method call on the connection or on its cursor, and an assignment
    [xid->f = v] to a field of the object at an address. *)
Inductive callee : Type := Conn | Curs.

Inductive event : Type :=
| Call (on : callee) (method : string) (args : list PyObject)
| Store (a : addr) (f : field).

(** The state the functions run in: the Xid objects allocated so far, by
    address (objects are never freed here: reference counts are left out),
    and the events so far, oldest first. *)
Record world : Type := mkWorld {
  objs : list XidObject;
  trace : list event
}.

Definition empty_world : world := mkWorld [] [].

(** A C function that returns a value or [NULL] with an exception set. *)
Inductive result (A : Type) : Type :=
| Ok (a : A)
| Raise (e : exn).

Arguments Ok {A} a.
Arguments Raise {A} e.

Definition M (A : Type) : Type := world -> result A * world.

Definition ret {A} (a : A) : M A := fun w => (Ok a, w).

Definition raise {A} (e : exn) : M A := fun w => (Raise e, w).

Definition bind {A B} (m : M A) (k : A -> M B) : M B :=
  fun w =>
    match m w with
    | (Ok a, w') => k a w'
    | (Raise e, w') => (Raise e, w')
    end.

Notation "'let*' x ':=' m 'in' k" := (bind m (fun x => k))
  (at level 10, x name, m at level 100, k at level 200).
Notation "m ';;' k" := (bind m (fun _ => k))
  (at level 100, k at level 200, right associativity, only parsing).

Definition lift {A} (r : result A) : M A := fun w => (r, w).

(** [PyErr_Clear] after a failed call, then the fallback. *)
Definition or_else {A} (m : M A) (fallback : M A) : M A :=
  fun w =>
    match m w with
    | (Ok a, w') => (Ok a, w')
    | (Raise _, w') => fallback w'
    end.

Definition alloc (x : XidObject) : M addr :=
  fun w => (Ok (length (objs w)), mkWorld (objs w ++ [x]) (trace w)).

Definition dangling : exn := Exception PyExc_SystemError None.

Definition load (a : addr) : M XidObject :=
  fun w =>
    match objs w !! a with
    | Some x => (Ok x, w)
    | None => (Raise dangling, w)
    end.

Definition store (a : addr) (f : field) (v : PyObject) : M unit :=
  fun w =>
    match objs w !! a with
    | Some x =>
        (Ok tt, mkWorld (<[a := set_field f v x]> (objs w)) (trace w ++ [Store a f]))
    | None => (Raise dangling, w)
    end.

Definition emit (e : event) : M unit :=
  fun w => (Ok tt, mkWorld (objs w) (trace w ++ [e])).

(** ** The Xid type *)

(** [xid_members]: every member is declared [RO]. *)
Inductive member_flag : Type := RO | RW.

Definition xid_members : list (string * field * member_flag) :=
  [ ("format_id"%string, F_format_id, RO);
    ("gtrid"%string, F_gtrid, RO);
    ("bqual"%string, F_bqual, RO);
    ("prepared"%string, F_prepared, RO);
    ("owner"%string, F_owner, RO);
    ("database"%string, F_database, RO) ].

Fixpoint find_member (name : string) (ms : list (string * field * member_flag))
  : option (field * member_flag) :=
  match ms with
  | [] => None
  | (n, f, fl) :: rest => if String.eqb n name then Some (f, fl) else find_member name rest
  end.

(** Attribute access through the member table, as the generic
    [getattr]/[setattr] of a type without instance dictionary does it: a
    read-only member refuses the assignment. *)
Definition xid_getattr (self : addr) (name : string) : M PyObject :=
  match find_member name xid_members with
  | Some (f, _) => let* x := load self in ret (get_field f x)
  | None => raise (Exception PyExc_AttributeError None)
  end.

Definition xid_setattr (self : addr) (name : string) (v : PyObject) : M unit :=
  match find_member name xid_members with
  | Some (f, RW) => store self f v
  | Some (_, RO) => raise (Exception PyExc_TypeError None)
  | None => raise (Exception PyExc_AttributeError None)
  end.

Definition xid_new : M addr :=
  alloc (mkXid Py_None Py_None Py_None Py_None Py_None Py_None).

(** *** [PyArg_ParseTupleAndKeywords] with the format [iss]

    [i] takes an integer that fits a C [int] (32 bits) and raises
    [OverflowError] on one that does not; [s] takes a string without NUL
    byte, by comparing [strlen] of its buffer with its size.  The arguments
    are the list [args], in the order of [kwlist]. *)
Definition INT_MAX : Z := 2147483647.
Definition INT_MIN : Z := -2147483648.

Definition arg_i (o : PyObject) : result Z :=
  match o with
  | PyInt z =>
      if INT_MAX <? z then Raise (Exception PyExc_OverflowError None)
      else if z <? INT_MIN then Raise (Exception PyExc_OverflowError None)
      else Ok z
  | _ => Raise (Exception PyExc_TypeError None)
  end.

Definition arg_s (o : PyObject) : result string :=
  match o with
  | PyString s =>
      if strlen s =? Z.of_nat (String.length s) then Ok s
      else Raise (Exception PyExc_TypeError None)
  | _ => Raise (Exception PyExc_TypeError None)
  end.

Definition PyArg_Parse_iss (args : list PyObject) : result (Z * string * string) :=
  match args with
  | [a1; a2; a3] =>
      match arg_i a1 with
      | Raise e => Raise e
      | Ok i =>
          match arg_s a2 with
          | Raise e => Raise e
          | Ok s1 =>
              match arg_s a3 with
              | Raise e => Raise e
              | Ok s2 => Ok (i, s1, s2)
              end
          end
      end
  | _ => Raise (Exception PyExc_TypeError None)
  end.

(** The loops of [xid_init] over the characters of a component: [true]
    when the loop runs to its end. *)
Fixpoint printable_loop (s : string) : bool :=
  match s with
  | EmptyString => true
  | String c rest =>
      if (c_char c <? 32) || (127 <=? c_char c) then false
      else printable_loop rest
  end.

Definition xid_init (self : addr) (args : list PyObject) : M unit :=
  let* parsed := lift (PyArg_Parse_iss args) in
  let fid := parsed.1.1 in
  let gtrid := parsed.1.2 in
  let bqual := parsed.2 in
  if (fid <? 0) || (2147483647 <? fid) then
    raise (ValueError "format_id must be a non-negative 32-bit integer")
  else
    let gtrid_len := strlen gtrid in
    if 64 <? gtrid_len then
      raise (ValueError "gtrid must be a string no longer than 64 characters")
    else if negb (printable_loop (c_str gtrid)) then
      raise (ValueError "gtrid must contain only printable characters.")
    else
      let bqual_len := strlen bqual in
      if 64 <? bqual_len then
        raise (ValueError "bqual must be a string no longer than 64 characters")
      else if negb (printable_loop (c_str bqual)) then
        raise (ValueError "bqual must contain only printable characters.")
      else
        store self F_format_id (PyInt fid) ;;
        store self F_gtrid (PyString (c_str gtrid)) ;;
        store self F_bqual (PyString (c_str bqual)).

(** Calling the type: [tp_new], then [tp_init] on the new object. *)
Definition Xid_call (args : list PyObject) : M addr :=
  let* self := xid_new in
  xid_init self args ;;
  ret self.

(** *** The sequence protocol *)

Definition xid_len (self : addr) : M Z := ret 3.

Definition xid_getitem (self : addr) (item : Z) : M PyObject :=
  let* x := load self in
  let item := if item <? 0 then item + 3 else item in
  match item with
  | 0 => ret (format_id x)
  | 1 => ret (gtrid x)
  | 2 => ret (bqual x)
  | _ => raise (IndexError "index out of range")
  end.

(** [xid[key]] for an integer [key].  The type has a sequence protocol
    and no mapping protocol, so [PyObject_GetItem] converts the key with
    [PyNumber_AsSsize_t], which raises [IndexError] for an integer that
    does not fit, and calls [PySequence_GetItem]; since [sq_length] is set,
    that adds the length to a negative index before it calls [sq_item],
    here [xid_getitem].  ([PY_SSIZE_T_MAX] is the one of a 64-bit build;
    what is proved of [Xid_subscript] does not depend on its value.) *)
Definition PY_SSIZE_T_MAX : Z := 9223372036854775807.

Definition PyNumber_AsSsize_t (key : Z) : M Z :=
  if (key <? - PY_SSIZE_T_MAX - 1) || (PY_SSIZE_T_MAX <? key) then
    raise (Exception PyExc_IndexError None)
  else ret key.

Definition Xid_PySequence_GetItem (self : addr) (i : Z) : M PyObject :=
  let* i := (if i <? 0 then let* l := xid_len self in ret (i + l) else ret i) in
  xid_getitem self i.

Definition Xid_subscript (self : addr) (key : Z) : M PyObject :=
  let* i := PyNumber_AsSsize_t key in
  Xid_PySequence_GetItem self i.

(** *** The transaction id string *)

Definition _xid_encode64 (s : PyObject) : M string :=
  match s with
  | PyString s => ret (b64encode s)
  | _ => raise (Exception PyExc_TypeError None)
  end.

Definition _xid_decode64 (s : string) : M string :=
  match b64decode s with
  | Some d => ret d
  | None => raise (Exception PyExc_TypeError None)
  end.

(** [PyString_Format] of ["%d_%s_%s"] with the triple of arguments. *)
Definition format_tid (fid : PyObject) (egtrid ebqual : string) : M string :=
  match fid with
  | PyInt z => ret (format_d z +:+ "_" +:+ egtrid +:+ "_" +:+ ebqual)
  | _ => raise (Exception PyExc_TypeError None)
  end.

(** The result is a C buffer filled by [strncpy]: the caller reads a C
    string from it.

    On an unparsed xid whose [gtrid] is no string the C function does not
    fail cleanly: [PyString_Size] returns -1 and leaves its [TypeError]
    pending, the buffer allocated has size 0, nothing is copied into it,
    and the function returns that buffer, not [NULL].  No string can be
    read from it.  The model has no value for such a buffer: it ends there
    with the pending exception, and every statement about the string
    returned is about an Xid whose [gtrid] is a string. *)
Definition xid_get_tid (self : addr) : M string :=
  let* x := load self in
  match format_id x with
  | Py_None =>
      match gtrid x with
      | PyString s => ret (c_str s)
      | _ => raise (Exception PyExc_TypeError None)
      end
  | fid =>
      let* egtrid := _xid_encode64 (gtrid x) in
      let* ebqual := _xid_encode64 (bqual x) in
      let* tid := format_tid fid egtrid ebqual in
      ret (c_str tid)
  end.

(** [regex.match(str)] and the three groups of the match.  [match] reads
    a string; it refuses with [TypeError] an object that is neither a
    string nor a buffer: [None], an integer, an Xid (the type has no
    [tp_as_buffer]) and the objects [PyOpaque] stands for. *)
Definition regex_match (str : PyObject) : M (option (string * string * string)) :=
  match str with
  | PyString s => ret (xid_regex_match s)
  | Py_None | PyInt _ | PyXid _ | PyOpaque _ =>
      raise (Exception PyExc_TypeError None)
  end.

Definition PyInt_Type_call (item : string) : M PyObject :=
  match int_of_digits item with
  | Some z => ret (PyInt z)
  | None => raise (Exception PyExc_ValueError None)
  end.

Definition _xid_parse_string (str : PyObject) : M addr :=
  let* m := regex_match str in
  match m with
  | None => raise (ValueError "bad xid format")
  | Some groups =>
      let* fid := PyInt_Type_call groups.1.1 in
      let* gtrid := _xid_decode64 groups.1.2 in
      let* bqual := _xid_decode64 groups.2 in
      Xid_call [fid; PyString gtrid; PyString bqual]
  end.

Definition _xid_unparsed_from_string (str : PyObject) : M addr :=
  let* xid := Xid_call [PyInt 0; PyString ""; PyString ""] in
  store xid F_gtrid str ;;
  store xid F_format_id Py_None ;;
  store xid F_bqual Py_None ;;
  ret xid.

Definition xid_from_string (str : PyObject) : M addr :=
  or_else (_xid_parse_string str) (_xid_unparsed_from_string str).

Definition xid_ensure (oxid : PyObject) : M addr :=
  match oxid with
  | PyXid a => ret a
  | PyString _ => xid_from_string oxid
  | _ => raise (TypeError "not a valid transaction id")
  end.

(** *** [xid_recover]

    The connection and its cursor are collaborators: for one call of
    [xid_recover] a [connection] gives what each of their methods answers,
    an exception or a value.  [fetchall] answers a list of rows, each a
    sequence of objects. *)
Record connection : Type := mkConn {
  cursor_exn : option exn;
  execute_exn : string -> option exn;
  fetchall_result : result (list (list PyObject));
  close_exn : option exn
}.

Definition call_method (on : callee) (method : string) (args : list PyObject)
    (outcome : option exn) : M unit :=
  emit (Call on method args) ;;
  match outcome with
  | None => ret tt
  | Some e => raise e
  end.

Definition PySequence_GetItem {A} (s : list A) (i : nat) : M A :=
  match s !! i with
  | Some v => ret v
  | None => raise (Exception PyExc_IndexError None)
  end.

Definition recover_query : string :=
  "SELECT gid, prepared, owner, database FROM pg_prepared_xacts;".

(** The loop [for (i = 0; i < len; ++i)], with [n] iterations left; the
    list [xids] comes from [PyList_New(len)], whose items start as [NULL]. *)
Fixpoint recover_loop (recs : list (list PyObject)) (n i : nat)
    (xids : list (option addr)) : M (list (option addr)) :=
  match n with
  | O => ret xids
  | S n' =>
      let* rec := PySequence_GetItem recs i in
      let* item := PySequence_GetItem rec 0 in
      let* xid := xid_from_string item in
      let* item := PySequence_GetItem rec 1 in
      store xid F_prepared item ;;
      let* item := PySequence_GetItem rec 2 in
      store xid F_owner item ;;
      let* item := PySequence_GetItem rec 3 in
      store xid F_database item ;;
      recover_loop recs n' (S i) (<[i := Some xid]> xids)
  end.

Definition xid_recover (conn : connection) : M (list (option addr)) :=
  call_method Conn "cursor" [] (cursor_exn conn) ;;
  call_method Curs "execute" [PyString recover_query] (execute_exn conn recover_query) ;;
  let* recs := (emit (Call Curs "fetchall" []) ;; lift (fetchall_result conn)) in
  call_method Curs "close" [] (close_exn conn) ;;
  let len := length recs in
  let xids := replicate len None in
  recover_loop recs len 0 xids.

(** * Definitions used in the statements and in the proofs *)

Definition range (n : nat) : list Z := map Z.of_nat (seq 0 n).

(** The bytes [xid_init] lets through. *)
Definition printable (c : ascii) : bool := (32 <=? ord c) && (ord c <? 127).

(** One turn of the loop of [a2b_base64] on a character of value [v]: the
    new [quad_pos], [leftbits] and [leftchar], and the byte written. *)
Definition a2b_step (quad_pos leftbits leftchar v : Z) : Z * Z * Z * option ascii :=
  let quad_pos := Z.land (quad_pos + 1) 3 in
  let leftchar := Z.lor (Z.shiftl leftchar 6) v in
  let leftbits := leftbits + 6 in
  if 8 <=? leftbits then
    let leftbits := leftbits - 8 in
    (quad_pos, leftbits, Z.land leftchar (Z.shiftl 1 leftbits - 1),
     Some (chr (Z.land (Z.shiftr leftchar leftbits) 255)))
  else (quad_pos, leftbits, leftchar, None).

(** What [b64encode] writes: characters of the alphabet and the pad. *)
Definition base64_char (c : ascii) : bool :=
  bool_decide (is_Some (table_a2b_base64 c)).

Definition blank : XidObject := mkXid Py_None Py_None Py_None Py_None Py_None Py_None.

(** The checks of [xid_init], apart from the assignments that follow them:
    the exception raised, or the three values assigned. *)
Definition xid_validate (args : list PyObject) : result (Z * string * string) :=
  match PyArg_Parse_iss args with
  | Raise e => Raise e
  | Ok (fid, g, b) =>
      if (fid <? 0) || (2147483647 <? fid) then
        Raise (ValueError "format_id must be a non-negative 32-bit integer")
      else if 64 <? strlen g then
        Raise (ValueError "gtrid must be a string no longer than 64 characters")
      else if negb (printable_loop (c_str g)) then
        Raise (ValueError "gtrid must contain only printable characters.")
      else if 64 <? strlen b then
        Raise (ValueError "bqual must be a string no longer than 64 characters")
      else if negb (printable_loop (c_str b)) then
        Raise (ValueError "bqual must contain only printable characters.")
      else Ok (fid, c_str g, c_str b)
  end.

Definition init_stores (a : addr) : list event :=
  [Store a F_format_id; Store a F_gtrid; Store a F_bqual].

(** A triple within the rules of [xid_init]. *)
Definition valid_component (s : string) : Prop :=
  (String.length s <= 64)%nat /\ string_forallb printable s = true.

Definition valid_triple (fid : Z) (g b : string) : Prop :=
  0 <= fid <= 2147483647 /\ valid_component g /\ valid_component b.

(** What [_xid_parse_string] does before it calls the type: the arguments
    of the call, or the exception that ends the parse. *)
Definition parse_groups (str : PyObject) : result (list PyObject) :=
  match str with
  | PyString s =>
      match xid_regex_match s with
      | None => Raise (ValueError "bad xid format")
      | Some (d, eg, eb) =>
          match int_of_digits d with
          | None => Raise (Exception PyExc_ValueError None)
          | Some fid =>
              match b64decode eg with
              | None => Raise (Exception PyExc_TypeError None)
              | Some g =>
                  match b64decode eb with
                  | None => Raise (Exception PyExc_TypeError None)
                  | Some b => Ok [PyInt fid; PyString g; PyString b]
                  end
              end
          end
      end
  | _ => Raise (Exception PyExc_TypeError None)
  end.

(** The object of an unparsed xid, and the assignments that build it. *)
Definition unparsed (str : PyObject) : XidObject :=
  mkXid Py_None str Py_None Py_None Py_None Py_None.

Definition structured (fid : Z) (g b : string) : XidObject :=
  mkXid (PyInt fid) (PyString g) (PyString b) Py_None Py_None Py_None.

Definition unparsed_stores (a : addr) : list event :=
  init_stores a ++ [Store a F_gtrid; Store a F_format_id; Store a F_bqual].

(** The triple a string decodes to, when the structured parse succeeds. *)
Definition decoded_triple (str : PyObject) : option (Z * string * string) :=
  match parse_groups str with
  | Raise _ => None
  | Ok args =>
      match xid_validate args with
      | Raise _ => None
      | Ok t => Some t
      end
  end.

Definition xid_of_string (str : PyObject) : XidObject :=
  match decoded_triple str with
  | Some (fid, g, b) => structured fid g b
  | None => unparsed str
  end.

(** The objects [xid_from_string] leaves behind before the one it
    returns: the one a failed call of the type had allocated. *)
Definition parse_litter (str : PyObject) : list XidObject :=
  match parse_groups str with
  | Raise _ => []
  | Ok args =>
      match xid_validate args with
      | Raise _ => [blank]
      | Ok _ => []
      end
  end.

Definition from_string_stores (str : PyObject) (a : addr) : list event :=
  match decoded_triple str with
  | Some _ => init_stores a
  | None => unparsed_stores a
  end.

(** The error kinds the specification names, as the exceptions [xid_init]
    raises for them. *)
Definition InvalidFormatId (e : exn) : Prop :=
  e = ValueError "format_id must be a non-negative 32-bit integer".




Definition metadata_stores (a : addr) : list event :=
  [Store a F_prepared; Store a F_owner; Store a F_database].

(** One turn of the loop on the row [rec], in a store of [n] objects: its
    outcome (the address of the Xid, or the exception that ends the loop),
    the objects it allocates and the events it adds. *)
Definition row_effect (n : nat) (rec : list PyObject)
  : result addr * list XidObject * list event :=
  match rec !! 0%nat with
  | None => (Raise (Exception PyExc_IndexError None), [], [])
  | Some gid =>
      let a := (n + length (parse_litter gid))%nat in
      let x0 := xid_of_string gid in
      let ev0 := from_string_stores gid a in
      match rec !! 1%nat with
      | None => (Raise (Exception PyExc_IndexError None), parse_litter gid ++ [x0], ev0)
      | Some p =>
          let x1 := set_field F_prepared p x0 in
          match rec !! 2%nat with
          | None =>
              (Raise (Exception PyExc_IndexError None), parse_litter gid ++ [x1],
               ev0 ++ [Store a F_prepared])
          | Some o =>
              let x2 := set_field F_owner o x1 in
              match rec !! 3%nat with
              | None =>
                  (Raise (Exception PyExc_IndexError None), parse_litter gid ++ [x2],
                   ev0 ++ [Store a F_prepared; Store a F_owner])
              | Some d =>
                  (Ok a, parse_litter gid ++ [set_field F_database d x2],
                   ev0 ++ metadata_stores a)
              end
          end
      end
  end.

(** The loop over the rows [recs], in a store of [n] objects. *)
Fixpoint rows_effect (n : nat) (recs : list (list PyObject))
  : result (list addr) * list XidObject * list event :=
  match recs with
  | [] => (Ok [], [], [])
  | rec :: rest =>
      match row_effect n rec with
      | (Raise e, newo, evs) => (Raise e, newo, evs)
      | (Ok a, newo, evs) =>
          match rows_effect (n + length newo) rest with
          | (Raise e, newo', evs') => (Raise e, newo ++ newo', evs ++ evs')
          | (Ok addrs, newo', evs') => (Ok (a :: addrs), newo ++ newo', evs ++ evs')
          end
      end
  end.

Definition recover_calls : list event :=
  [Call Conn "cursor" []; Call Curs "execute" [PyString recover_query];
   Call Curs "fetchall" []; Call Curs "close" []].

Definition is_metadata_store (e : event) : bool :=
  match e with
  | Store _ f => is_metadata f
  | Call _ _ _ => false
  end.

Definition is_call (e : event) : bool :=
  match e with
  | Call _ _ _ => true
  | Store _ _ => false
  end.

(** An assignment to an object at an address from [lo] up to [hi]. *)
Definition store_within (lo hi : nat) (e : event) : Prop :=
  match e with
  | Store a _ => (lo <= a < hi)%nat
  | Call _ _ _ => False
  end.

Definition with_metadata (x : XidObject) (p o d : PyObject) : XidObject :=
  set_field F_database d (set_field F_owner o (set_field F_prepared p x)).

Definition example_conn : connection :=
  mkConn None (fun _ => None)
    (Ok [[PyString "1_YWJj_eHl6"; PyString "2024-01-01"; PyString "alice";
          PyString "db1"]])
    None.

(** What a caller can do with Xids once they are built: build another one,
    call [__init__] of one again (the [tp_init] slot, [xid_init]), use one
    as a sequence (through the slot, or as [xid[key]]), read or assign an
    attribute, ask for the transaction id
    string, and call [xid_ensure], [xid_from_string] or [xid_recover]. *)
Inductive operation : Type :=
| OpNew (args : list PyObject)
| OpInit (self : addr) (args : list PyObject)
| OpLen (self : addr)
| OpGetitem (self : addr) (item : Z)
| OpSubscript (self : addr) (key : Z)
| OpGetattr (self : addr) (name : string)
| OpSetattr (self : addr) (name : string) (v : PyObject)
| OpGetTid (self : addr)
| OpEnsure (oxid : PyObject)
| OpFromString (str : PyObject)
| OpRecover (conn : connection).

(** The state an operation leaves, whatever it returns or raises. *)
Definition perform (op : operation) (w : world) : world :=
  match op with
  | OpNew args => (Xid_call args w).2
  | OpInit self args => (xid_init self args w).2
  | OpLen self => (xid_len self w).2
  | OpGetitem self item => (xid_getitem self item w).2
  | OpSubscript self key => (Xid_subscript self key w).2
  | OpGetattr self name => (xid_getattr self name w).2
  | OpSetattr self name v => (xid_setattr self name v w).2
  | OpGetTid self => (xid_get_tid self w).2
  | OpEnsure oxid => (xid_ensure oxid w).2
  | OpFromString str => (xid_from_string str w).2
  | OpRecover conn => (xid_recover conn w).2
  end.

(** A sequence of operations, one after the other. *)
Fixpoint perform_all (ops : list operation) (w : world) : world :=
  match ops with
  | [] => w
  | op :: rest => perform_all rest (perform op w)
  end.

(** What operations may do to the state: they add objects after the ones
    that exist, assign only to the objects they add, assign a metadata
    field of an object at most once, and assign none unless [xid_recover]
    is among them. *)
Definition respects_xids (recovering : Prop) (w w' : world) : Prop :=
  exists (newo : list XidObject) (evs : list event),
    objs w' = objs w ++ newo
    /\ trace w' = trace w ++ evs
    /\ (forall a f, Store a f ∈ evs -> (length (objs w) <= a < length (objs w'))%nat)
    /\ NoDup (filter is_metadata_store evs)
    /\ ((exists e, e ∈ evs /\ is_metadata_store e = true) -> recovering).

(** The same when [xid_init] may be called again, on the Xids at the
    addresses in [reinit]: an object that exists stays at its address with
    its metadata, and is the same object unless it is in [reinit]; an
    assignment to an object that exists is to one in [reinit] and to no
    metadata field. *)
Definition keeps_xids (recovering : Prop) (reinit : addr -> Prop) (w w' : world)
  : Prop :=
  exists evs : list event,
    trace w' = trace w ++ evs
    /\ (length (objs w) <= length (objs w'))%nat
    /\ (forall a x, objs w !! a = Some x ->
          exists x', objs w' !! a = Some x'
            /\ prepared x' = prepared x /\ owner x' = owner x
            /\ database x' = database x
            /\ (~ reinit a -> x' = x))
    /\ (forall a f, Store a f ∈ evs ->
          (length (objs w) <= a < length (objs w'))%nat
          \/ ((a < length (objs w))%nat /\ reinit a /\ is_metadata f = false))
    /\ NoDup (filter is_metadata_store evs)
    /\ ((exists e, e ∈ evs /\ is_metadata_store e = true) -> recovering).

(** An Xid as the type builds it: one with a format_id has it as an
    integer, and its gtrid and bqual are strings within the rules of
    [xid_init]; one without is unparsed (or fresh from [xid_new]). *)
Definition wf_xid (x : XidObject) : Prop :=
  match format_id x with
  | Py_None => True
  | PyInt fid =>
      exists g b, gtrid x = PyString g /\ bqual x = PyString b /\ valid_triple fid g b
  | _ => False
  end.

(** The three fields that make the transaction id. *)
Definition same_triple (x y : XidObject) : Prop :=
  format_id x = format_id y /\ gtrid x = gtrid y /\ bqual x = bqual y.

(** Neither an Xid nor a string: what [xid_ensure] refuses. *)
Definition not_xid_nor_string (o : PyObject) : Prop :=
  match o with
  | PyXid _ | PyString _ => False
  | _ => True
  end.

(** * Properties *)

(** ** Bytes *)

Lemma ord_range (c : ascii) : 0 <= ord c < 256.
Proof.
  unfold ord. pose proof (N_ascii_bounded c) as H. lia.
Qed.

Lemma chr_ord (c : ascii) : chr (ord c) = c.
Proof.
  unfold chr, ord. rewrite N2Z.id. apply ascii_N_embedding.
Qed.

Lemma range_complete (n : nat) (v : Z) : 0 <= v < Z.of_nat n -> In v (range n).
Proof.
  intros H. unfold range. apply in_map_iff. exists (Z.to_nat v). split; [lia|].
  apply in_seq. lia.
Qed.

Lemma range_forall (n : nat) (P : Z -> bool) :
  forallb P (range n) = true -> forall v, 0 <= v < Z.of_nat n -> P v = true.
Proof.
  intros H v Hv. rewrite forallb_forall in H. apply H. by apply range_complete.
Qed.

(** A decidable property of one or two values below [n] holds of all of
    them when it is found to hold of each: the proofs below that go through
    all bytes rest on these. *)
Lemma below_forall (n : nat) (P : Z -> Prop) (dec : forall v, Decision (P v)) :
  forallb (fun v => bool_decide (P v)) (range n) = true ->
  forall v, 0 <= v < Z.of_nat n -> P v.
Proof.
  intros Hall v Hv. eapply bool_decide_eq_true_1.
  by apply (range_forall n (fun v => bool_decide (P v)) Hall).
Qed.

Lemma below_forall2 (n m : nat) (P : Z -> Z -> Prop)
    (dec : forall a b, Decision (P a b)) :
  forallb (fun a => forallb (fun b => bool_decide (P a b)) (range m)) (range n) = true ->
  forall a b, 0 <= a < Z.of_nat n -> 0 <= b < Z.of_nat m -> P a b.
Proof.
  intros Hall a b Ha Hb.
  pose proof (range_forall n _ Hall a Ha) as H1. cbv beta in H1.
  eapply bool_decide_eq_true_1.
  by apply (range_forall m (fun b => bool_decide (P a b)) H1).
Qed.

Lemma ascii_forall (P : ascii -> bool) :
  forallb (fun v => P (chr v)) (range 256) = true -> forall c, P c = true.
Proof.
  intros H c. rewrite <- (chr_ord c).
  apply (range_forall 256 (fun v => P (chr v)) H). pose proof (ord_range c). lia.
Qed.

Lemma c_str_no_nul (s : string) : no_nul s = true -> c_str s = s.
Proof.
  induction s as [|c s IH]; simpl; [done|].
  unfold no_nul in *. simpl. intros [Hc Hs]%andb_prop.
  destruct (is_nul c); [done|]. by rewrite IH.
Qed.

Lemma c_str_length (s : string) : (String.length (c_str s) <= String.length s)%nat.
Proof.
  induction s as [|c s IH]; simpl; [lia|]. destruct (is_nul c); simpl; lia.
Qed.

Lemma c_str_length_eqb (s : string) :
  Nat.eqb (String.length (c_str s)) (String.length s) = no_nul s.
Proof.
  unfold no_nul. induction s as [|c s IH]; simpl; [done|].
  destruct (is_nul c); simpl; [done|]. exact IH.
Qed.

Lemma strlen_no_nul (s : string) :
  (strlen s =? Z.of_nat (String.length s)) = no_nul s.
Proof.
  rewrite <- c_str_length_eqb. unfold strlen.
  destruct (Nat.eqb_spec (String.length (c_str s)) (String.length s)) as [E|E].
  - rewrite E. apply Z.eqb_refl.
  - apply Z.eqb_neq. lia.
Qed.

Lemma append_nil_r (s : string) : s +:+ "" = s.
Proof. induction s as [|c s IH]; [done|]. exact (f_equal (String c) IH). Qed.

Lemma append_assoc (s t u : string) : (s +:+ t) +:+ u = s +:+ (t +:+ u).
Proof. induction s as [|c s IH]; [done|]. exact (f_equal (String c) IH). Qed.

Lemma string_forallb_app (p : ascii -> bool) (s t : string) :
  string_forallb p (s +:+ t) = string_forallb p s && string_forallb p t.
Proof.
  induction s as [|c s IH]; simpl; [done|]. by rewrite IH, andb_assoc.
Qed.

Lemma string_forallb_impl (p q : ascii -> bool) (s : string) :
  (forall c, p c = true -> q c = true) ->
  string_forallb p s = true -> string_forallb q s = true.
Proof.
  intros Hpq. induction s as [|c s IH]; simpl; [done|].
  intros [Hc Hs]%andb_prop. by rewrite (Hpq c Hc), IH.
Qed.

Lemma printable_loop_spec (s : string) : printable_loop s = string_forallb printable s.
Proof.
  induction s as [|c s IH]; simpl; [done|].
  rewrite <- IH. unfold printable, c_char. pose proof (ord_range c).
  destruct (128 <=? ord c) eqn:E1;
  repeat match goal with
  | |- context [?a <=? ?b] => destruct (Z.leb_spec a b)
  | |- context [?a <? ?b] => destruct (Z.ltb_spec a b)
  end; simpl; try done; lia.
Qed.

(** With an unsigned [char] the test of the loops refuses the same bytes. *)
Lemma printable_unsigned (c : ascii) :
  ((c_char c <? 32) || (127 <=? c_char c)) = ((ord c <? 32) || (127 <=? ord c)).
Proof.
  unfold c_char. pose proof (ord_range c).
  destruct (128 <=? ord c) eqn:E1;
  repeat match goal with
  | |- context [?a <=? ?b] => destruct (Z.leb_spec a b)
  | |- context [?a <? ?b] => destruct (Z.ltb_spec a b)
  end; simpl; try done; lia.
Qed.

Lemma printable_not_nul (c : ascii) : printable c = true -> negb (is_nul c) = true.
Proof.
  unfold printable, is_nul. intros [H1 H2]%andb_prop.
  apply Z.leb_le in H1. apply negb_true_iff, Z.eqb_neq. lia.
Qed.

Lemma printable_no_nul (s : string) : string_forallb printable s = true -> no_nul s = true.
Proof. apply string_forallb_impl, printable_not_nul. Qed.

(** ** Base64 *)

Lemma b2a_alphabet (v : Z) :
  0 <= v < 64 ->
  a2b_skipped (b2a v) = false /\ Ascii.eqb (b2a v) BASE64_PAD = false
  /\ table_a2b_base64 (b2a v) = Some v.
Proof.
  revert v.
  apply (below_forall 64 _ (fun v => decide
    (a2b_skipped (b2a v) = false /\ Ascii.eqb (b2a v) BASE64_PAD = false
     /\ table_a2b_base64 (b2a v) = Some v))).
  vm_compute. reflexivity.
Qed.

Lemma a2b_loop_alphabet (qp lb lc v : Z) (rest : string) :
  0 <= v < 64 ->
  a2b_loop qp lb lc (String (b2a v) rest) =
  match a2b_step qp lb lc v with
  | (qp', lb', lc', Some byte) =>
      let '(out, final) := a2b_loop qp' lb' lc' rest in (String byte out, final)
  | (qp', lb', lc', None) => a2b_loop qp' lb' lc' rest
  end.
Proof.
  intros Hv. destruct (b2a_alphabet v Hv) as (H1 & H2 & H3).
  cbn [a2b_loop]. rewrite H1, H2, H3. unfold a2b_step.
  destruct (8 <=? lb + 6); reflexivity.
Qed.

(** The high bits of a byte that go into the next character. *)
Lemma byte_high_bits (b : Z) :
  0 <= b < 256 -> 0 <= Z.shiftr b 4 < 16 /\ 0 <= Z.shiftr b 6 < 4.
Proof.
  revert b.
  apply (below_forall 256 _ (fun b => decide
    (0 <= Z.shiftr b 4 < 16 /\ 0 <= Z.shiftr b 6 < 4))).
  vm_compute. reflexivity.
Qed.

Lemma sextet14_range (a : Z) :
  0 <= a < 256 -> 0 <= sextet1 a < 64 /\ 0 <= sextet4 a < 64.
Proof.
  revert a.
  apply (below_forall 256 _ (fun a => decide
    (0 <= sextet1 a < 64 /\ 0 <= sextet4 a < 64))).
  vm_compute. reflexivity.
Qed.

Lemma sextet2_range (a h : Z) :
  0 <= a < 256 -> 0 <= h < 16 -> 0 <= Z.lor (Z.shiftl (Z.land a 3) 4) h < 64.
Proof.
  revert a h.
  apply (below_forall2 256 16 _ (fun a h => decide
    (0 <= Z.lor (Z.shiftl (Z.land a 3) 4) h < 64))).
  vm_compute. reflexivity.
Qed.

Lemma sextet3_range (b t : Z) :
  0 <= b < 256 -> 0 <= t < 4 -> 0 <= Z.lor (Z.shiftl (Z.land b 15) 2) t < 64.
Proof.
  revert b t.
  apply (below_forall2 256 4 _ (fun b t => decide
    (0 <= Z.lor (Z.shiftl (Z.land b 15) 2) t < 64))).
  vm_compute. reflexivity.
Qed.

Lemma sextets_range (a b : Z) :
  0 <= a < 256 -> 0 <= b < 256 ->
  0 <= sextet1 a < 64 /\ 0 <= sextet2 a b < 64 /\ 0 <= sextet3 a b < 64
  /\ 0 <= sextet4 a < 64.
Proof.
  intros Ha Hb. destruct (byte_high_bits b Hb) as [H4 H6].
  destruct (sextet14_range a Ha) as [S1 S4].
  split; [done|]. split; [by apply sextet2_range|].
  split; [by apply sextet3_range|done].
Qed.

(** The four turns of the loop on the characters of three bytes.  The
    second and the third are checked for every value of the high bits [h]
    and [t] that the next byte brings in. *)
Lemma a2b_step_1 (a : Z) :
  0 <= a < 256 -> a2b_step 0 0 0 (sextet1 a) = (1, 6, sextet1 a, None).
Proof.
  revert a.
  apply (below_forall 256 _ (fun a => decide
    (a2b_step 0 0 0 (sextet1 a) = (1, 6, sextet1 a, None)))).
  vm_compute. reflexivity.
Qed.

Lemma a2b_step_2_bits (a h : Z) :
  0 <= a < 256 -> 0 <= h < 16 ->
  a2b_step 1 6 (sextet1 a) (Z.lor (Z.shiftl (Z.land a 3) 4) h)
  = (2, 4, h, Some (chr a)).
Proof.
  revert a h.
  apply (below_forall2 256 16 _ (fun a h => decide
    (a2b_step 1 6 (sextet1 a) (Z.lor (Z.shiftl (Z.land a 3) 4) h)
     = (2, 4, h, Some (chr a))))).
  vm_compute. reflexivity.
Qed.

Lemma a2b_step_2 (a b : Z) :
  0 <= a < 256 -> 0 <= b < 256 ->
  a2b_step 1 6 (sextet1 a) (sextet2 a b) = (2, 4, Z.shiftr b 4, Some (chr a)).
Proof.
  intros Ha Hb. destruct (byte_high_bits b Hb) as [H4 _].
  by apply a2b_step_2_bits.
Qed.

Lemma a2b_step_3_bits (b t : Z) :
  0 <= b < 256 -> 0 <= t < 4 ->
  a2b_step 2 4 (Z.shiftr b 4) (Z.lor (Z.shiftl (Z.land b 15) 2) t)
  = (3, 2, t, Some (chr b)).
Proof.
  revert b t.
  apply (below_forall2 256 4 _ (fun b t => decide
    (a2b_step 2 4 (Z.shiftr b 4) (Z.lor (Z.shiftl (Z.land b 15) 2) t)
     = (3, 2, t, Some (chr b))))).
  vm_compute. reflexivity.
Qed.

Lemma a2b_step_3 (b c : Z) :
  0 <= b < 256 -> 0 <= c < 256 ->
  a2b_step 2 4 (Z.shiftr b 4) (sextet3 b c) = (3, 2, Z.shiftr c 6, Some (chr b)).
Proof.
  intros Hb Hc. destruct (byte_high_bits c Hc) as [_ H6].
  by apply a2b_step_3_bits.
Qed.

Lemma a2b_step_4 (c : Z) :
  0 <= c < 256 -> a2b_step 3 2 (Z.shiftr c 6) (sextet4 c) = (0, 0, 0, Some (chr c)).
Proof.
  revert c.
  apply (below_forall 256 _ (fun c => decide
    (a2b_step 3 2 (Z.shiftr c 6) (sextet4 c) = (0, 0, 0, Some (chr c))))).
  vm_compute. reflexivity.
Qed.

Lemma a2b_loop_quad (x y z : ascii) (rest : string) :
  a2b_loop 0 0 0
    (String (b2a (sextet1 (ord x)))
       (String (b2a (sextet2 (ord x) (ord y)))
          (String (b2a (sextet3 (ord y) (ord z)))
             (String (b2a (sextet4 (ord z))) rest)))) =
  let '(out, final) := a2b_loop 0 0 0 rest in
  (String x (String y (String z out)), final).
Proof.
  pose proof (ord_range x) as Hx. pose proof (ord_range y) as Hy.
  pose proof (ord_range z) as Hz.
  destruct (sextets_range (ord x) (ord y) Hx Hy) as (S1 & S2 & _ & _).
  destruct (sextets_range (ord y) (ord z) Hy Hz) as (_ & _ & S3 & _).
  destruct (sextets_range (ord z) (ord z) Hz Hz) as (_ & _ & _ & S4).
  rewrite (a2b_loop_alphabet _ _ _ _ _ S1), a2b_step_1 by done.
  rewrite (a2b_loop_alphabet _ _ _ _ _ S2), a2b_step_2 by done.
  rewrite (a2b_loop_alphabet _ _ _ _ _ S3), a2b_step_3 by done.
  rewrite (a2b_loop_alphabet _ _ _ _ _ S4), a2b_step_4 by done.
  rewrite !chr_ord. by destruct (a2b_loop 0 0 0 rest).
Qed.

Lemma a2b_loop_last1 (x : ascii) :
  a2b_loop 0 0 0 (b64encode (String x EmptyString)) = (String x EmptyString, 0).
Proof.
  pose proof (ord_range x) as Hx.
  destruct (sextets_range (ord x) 0 Hx ltac:(lia)) as (S1 & S2 & _ & _).
  cbn [b64encode].
  replace (Z.shiftl (Z.land (ord x) 3) 4) with (sextet2 (ord x) 0)
    by (unfold sextet2; apply Z.lor_0_r).
  rewrite (a2b_loop_alphabet _ _ _ _ _ S1), a2b_step_1 by done.
  rewrite (a2b_loop_alphabet _ _ _ _ _ S2), a2b_step_2 by (done || lia).
  by rewrite chr_ord.
Qed.

Lemma a2b_loop_last2 (x y : ascii) :
  a2b_loop 0 0 0 (b64encode (String x (String y EmptyString)))
  = (String x (String y EmptyString), 0).
Proof.
  pose proof (ord_range x) as Hx. pose proof (ord_range y) as Hy.
  destruct (sextets_range (ord x) (ord y) Hx Hy) as (S1 & S2 & _ & _).
  destruct (sextets_range (ord y) 0 Hy ltac:(lia)) as (_ & _ & S3 & _).
  cbn [b64encode].
  replace (Z.shiftl (Z.land (ord y) 15) 2) with (sextet3 (ord y) 0)
    by (unfold sextet3; apply Z.lor_0_r).
  rewrite (a2b_loop_alphabet _ _ _ _ _ S1), a2b_step_1 by done.
  rewrite (a2b_loop_alphabet _ _ _ _ _ S2), a2b_step_2 by done.
  rewrite (a2b_loop_alphabet _ _ _ _ _ S3), a2b_step_3 by (done || lia).
  by rewrite !chr_ord.
Qed.

(** Induction on strings, three characters at a time. *)
Lemma string_ind_by3 (P : string -> Prop) :
  P EmptyString ->
  (forall x, P (String x EmptyString)) ->
  (forall x y, P (String x (String y EmptyString))) ->
  (forall x y z rest, P rest -> P (String x (String y (String z rest)))) ->
  forall s, P s.
Proof.
  intros H0 H1 H2 H3 s.
  assert (P s /\ (forall x, P (String x s)) /\ (forall x y, P (String x (String y s))))
    as [H _]; [|exact H].
  induction s as [|c s (IH0 & IH1 & IH2)]; [by auto|].
  split; [apply IH1|]. split; [intros x; apply IH2|]. intros x y. by apply H3.
Qed.

Lemma a2b_loop_b64encode (s : string) : a2b_loop 0 0 0 (b64encode s) = (s, 0).
Proof.
  induction s as [| x | x y | x y z rest IH] using string_ind_by3.
  - done.
  - apply a2b_loop_last1.
  - apply a2b_loop_last2.
  - cbn [b64encode]. by rewrite a2b_loop_quad, IH.
Qed.

(** Decoding what [b64encode] gives returns the bytes encoded. *)
Lemma b64decode_b64encode (s : string) : b64decode (b64encode s) = Some s.
Proof. unfold b64decode. by rewrite a2b_loop_b64encode. Qed.

Lemma get_beyond (s : string) (n : nat) :
  (String.length s <= n)%nat -> String.get n s = None.
Proof.
  revert n. induction s as [|c s IH]; intros n Hn; [by destruct n|].
  destruct n as [|n]; simpl in *; [lia|]. apply IH. lia.
Qed.

Lemma b2a_base64_char (v : Z) : base64_char (b2a v) = true.
Proof.
  destruct (decide (0 <= v < 64)) as [Hv|Hv].
  - destruct (b2a_alphabet v Hv) as (_ & _ & H). unfold base64_char. by rewrite H.
  - unfold b2a. destruct (decide (v < 0)) as [Hneg|Hpos].
    + replace (Z.to_nat v) with 0%nat by lia. done.
    + rewrite get_beyond; [done|]. simpl. lia.
Qed.

(** The test vectors of RFC 4648, both ways. *)
Example b64encode_vectors :
  map b64encode ["f"; "fo"; "foo"; "foob"; "fooba"; "foobar"]%string
  = ["Zg=="; "Zm8="; "Zm9v"; "Zm9vYg=="; "Zm9vYmE="; "Zm9vYmFy"]%string.
Proof. reflexivity. Qed.

Example b64decode_vectors :
  map b64decode ["Zg=="; "Zm8="; "Zm9v"; "Zm9vYg=="; "Zm9vYmE="; "Zm9vYmFy"]%string
  = map Some ["f"; "fo"; "foo"; "foob"; "fooba"; "foobar"]%string.
Proof. reflexivity. Qed.

Lemma b64encode_chars (s : string) : string_forallb base64_char (b64encode s) = true.
Proof.
  induction s as [| x | x y | x y z rest IH] using string_ind_by3;
    cbn [b64encode string_forallb]; rewrite ?b2a_base64_char, ?IH; done.
Qed.

Lemma base64_char_plain (c : ascii) :
  base64_char c = true -> not_underscore c = true /\ negb (is_nul c) = true.
Proof.
  intros H.
  pose proof (ascii_forall
    (fun c => implb (base64_char c) (not_underscore c && negb (is_nul c)))) as Hall.
  specialize (Hall ltac:(vm_compute; reflexivity) c). simpl in Hall.
  rewrite H in Hall. simpl in Hall. by apply andb_prop in Hall.
Qed.

Lemma b64encode_no_underscore (s : string) :
  string_forallb not_underscore (b64encode s) = true.
Proof.
  eapply string_forallb_impl; [|apply b64encode_chars].
  intros c Hc. by apply base64_char_plain.
Qed.

Lemma b64encode_no_nul (s : string) : no_nul (b64encode s) = true.
Proof.
  eapply string_forallb_impl; [|apply b64encode_chars].
  intros c Hc. by apply base64_char_plain.
Qed.

(** ** Decimal integers *)

Lemma digit_plain (c : ascii) :
  is_digit c = true -> not_underscore c = true /\ negb (is_nul c) = true.
Proof.
  intros H.
  pose proof (ascii_forall
    (fun c => implb (is_digit c) (not_underscore c && negb (is_nul c)))) as Hall.
  specialize (Hall ltac:(vm_compute; reflexivity) c). simpl in Hall.
  rewrite H in Hall. simpl in Hall. by apply andb_prop in Hall.
Qed.

Lemma string_of_uint_digits (d : Decimal.uint) :
  string_forallb is_digit (NilEmpty.string_of_uint d) = true.
Proof. induction d; simpl; done. Qed.

Lemma format_d_digits (z : Z) :
  0 <= z -> string_forallb is_digit (format_d z) = true /\ format_d z <> EmptyString.
Proof.
  intros Hz. unfold format_d. destruct z as [|p|p]; [done| |lia].
  simpl. unfold NilZero.string_of_uint.
  destruct (Pos.to_uint p) eqn:E; (split; [|done]);
    try (rewrite <- E; apply string_of_uint_digits); done.
Qed.

(** [int] reads back what [%d] wrote. *)
Lemma int_of_digits_format_d (z : Z) : 0 <= z -> int_of_digits (format_d z) = Some z.
Proof.
  intros Hz. unfold int_of_digits, format_d.
  destruct z as [|p|p]; [done| |lia].
  pose proof (DecimalZ.of_to (Z.pos p)) as Hof. simpl in Hof.
  simpl. unfold NilZero.string_of_uint.
  destruct (Pos.to_uint p) eqn:E;
    try (rewrite <- E, NilEmpty.usu; f_equal; rewrite E; exact Hof).
  simpl in *. by rewrite <- Hof.
Qed.

(** ** The regular expression *)

Lemma span_app (p : ascii -> bool) (tok tl : string) :
  string_forallb p tok = true ->
  match tl with EmptyString => True | String c _ => p c = false end ->
  span p (tok +:+ tl) = (tok, tl).
Proof.
  intros Htok Htl. induction tok as [|c tok IH]; simpl in *.
  - destruct tl as [|c tl]; [done|]. simpl. by rewrite Htl.
  - apply andb_prop in Htok as [Hc Htok]. by rewrite Hc, IH.
Qed.

Lemma span_spec (p : ascii -> bool) (s tok tl : string) :
  span p s = (tok, tl) ->
  s = tok +:+ tl /\ string_forallb p tok = true
  /\ match tl with EmptyString => True | String c _ => p c = false end.
Proof.
  revert tok tl. induction s as [|c s IH]; intros tok tl; simpl.
  - intros [= <- <-]. done.
  - destruct (p c) eqn:E.
    + destruct (span p s) as [tok' tl'] eqn:Es. intros [= <- <-].
      destruct (IH _ _ eq_refl) as (-> & H1 & H2). simpl. by rewrite E, H1.
    + intros [= <- <-]. done.
Qed.

(** A string made of a run of digits and two runs without underscore,
    joined by underscores, matches, and the groups are the three runs. *)
Lemma xid_regex_match_joined (d g b : string) :
  d <> EmptyString ->
  string_forallb is_digit d = true ->
  string_forallb not_underscore g = true ->
  string_forallb not_underscore b = true ->
  xid_regex_match (d +:+ "_" +:+ g +:+ "_" +:+ b) = Some (d, g, b).
Proof.
  intros Hne Hd Hg Hb. unfold xid_regex_match.
  rewrite (span_app is_digit d) by done.
  destruct d as [|c d]; [done|].
  change ("_" +:+ g +:+ "_" +:+ b) with (String "_" (g +:+ "_" +:+ b)).
  change (is_underscore "_") with true. cbn match.
  rewrite (span_app not_underscore g) by done.
  change ("_" +:+ b) with (String "_" b).
  rewrite <- (append_nil_r b) at 1.
  rewrite (span_app not_underscore b) by done. done.
Qed.

(** Conversely, a match splits the string that way. *)
Lemma xid_regex_match_spec (s d g b : string) :
  xid_regex_match s = Some (d, g, b) ->
  s = d +:+ "_" +:+ g +:+ "_" +:+ b
  /\ d <> EmptyString
  /\ string_forallb is_digit d = true
  /\ string_forallb not_underscore g = true
  /\ string_forallb not_underscore b = true.
Proof.
  unfold xid_regex_match.
  destruct (span is_digit s) as [g1 r1] eqn:E1.
  destruct g1 as [|c g1]; [done|]. destruct r1 as [|u1 r2]; [done|].
  destruct (is_underscore u1) eqn:Eu1; [|done].
  destruct (span not_underscore r2) as [g2 r3] eqn:E2.
  destruct r3 as [|u2 r4]; [done|].
  destruct (span not_underscore r4) as [g3 r5] eqn:E3.
  destruct r5; [|done]. intros [= <- <- <-].
  apply span_spec in E1 as (-> & Hd & _).
  apply span_spec in E2 as (-> & Hg & Hu2).
  apply span_spec in E3 as (-> & Hb & _).
  unfold not_underscore in Hu2. apply negb_false_iff in Hu2.
  assert (forall u, is_underscore u = true -> u = "_"%char) as Hu.
  { intros u Hu. unfold is_underscore in Hu. apply Z.eqb_eq in Hu.
    rewrite <- (chr_ord u), Hu. done. }
  rewrite (Hu _ Eu1), (Hu _ Hu2).
  repeat split; try done.
  f_equal. simpl. f_equal.
  by rewrite append_nil_r.
Qed.

(** ** Running the functions *)

Lemma bind_run {A B} (m : M A) (k : A -> M B) (w : world) :
  bind m k w = match m w with
               | (Ok a, w') => k a w'
               | (Raise e, w') => (Raise e, w')
               end.
Proof. reflexivity. Qed.

(** An assignment to a field of the object allocated last. *)
Lemma store_last (l : list XidObject) (x : XidObject) (tr : list event)
    (f : field) (v : PyObject) :
  store (length l) f v (mkWorld (l ++ [x]) tr)
  = (Ok tt, mkWorld (l ++ [set_field f v x]) (tr ++ [Store (length l) f])).
Proof.
  unfold store. cbn [objs trace].
  rewrite list_lookup_middle by done.
  rewrite insert_app_r_alt by done. by rewrite Nat.sub_diag.
Qed.

Lemma load_last (l : list XidObject) (x : XidObject) (tr : list event) :
  load (length l) (mkWorld (l ++ [x]) tr) = (Ok x, mkWorld (l ++ [x]) tr).
Proof. unfold load. cbn [objs]. by rewrite list_lookup_middle. Qed.

Lemma Xid_call_run (args : list PyObject) (w : world) :
  Xid_call args w =
  match xid_validate args with
  | Raise e => (Raise e, mkWorld (objs w ++ [blank]) (trace w))
  | Ok (fid, g, b) =>
      (Ok (length (objs w)),
       mkWorld (objs w ++ [mkXid (PyInt fid) (PyString g) (PyString b)
                             Py_None Py_None Py_None])
               (trace w ++ init_stores (length (objs w))))
  end.
Proof.
  unfold Xid_call, xid_new, alloc, xid_init, xid_validate.
  rewrite !bind_run. cbn [objs trace]. unfold lift.
  destruct (PyArg_Parse_iss args) as [[[fid g] b]|e]; [|done].
  cbn [fst snd].
  destruct ((fid <? 0) || (2147483647 <? fid)); [done|].
  destruct (64 <? strlen g); [done|].
  destruct (negb (printable_loop (c_str g))); [done|].
  destruct (64 <? strlen b); [done|].
  destruct (negb (printable_loop (c_str b))); [done|].
  do 3 (rewrite ?bind_run, store_last;
        cbn [set_field format_id gtrid bqual prepared owner database]).
  unfold ret, init_stores. by rewrite <- !app_assoc.
Qed.

Lemma arg_s_no_nul (s : string) : no_nul s = true -> arg_s (PyString s) = Ok s.
Proof. intros H. unfold arg_s. by rewrite strlen_no_nul, H. Qed.

Lemma strlen_length (s : string) :
  no_nul s = true -> strlen s = Z.of_nat (String.length s).
Proof. intros H. unfold strlen. by rewrite c_str_no_nul. Qed.

Lemma xid_validate_valid (fid : Z) (g b : string) :
  valid_triple fid g b ->
  xid_validate [PyInt fid; PyString g; PyString b] = Ok (fid, g, b).
Proof.
  intros (Hf & (Hg1 & Hg2) & (Hb1 & Hb2)).
  pose proof (printable_no_nul g Hg2) as Ng. pose proof (printable_no_nul b Hb2) as Nb.
  unfold xid_validate, PyArg_Parse_iss, arg_i, INT_MAX, INT_MIN.
  rewrite !arg_s_no_nul by done.
  destruct (Z.ltb_spec fid (-2147483648)); [lia|].
  destruct (Z.ltb_spec 2147483647 fid); [lia|].
  cbv beta iota.
  destruct (Z.ltb_spec fid 0); [lia|].
  destruct (Z.ltb_spec 2147483647 fid); [lia|]. cbn [orb].
  rewrite !strlen_length, !c_str_no_nul, !printable_loop_spec, Hg2, Hb2 by done.
  destruct (Z.ltb_spec 64 (Z.of_nat (String.length g))); [lia|].
  destruct (Z.ltb_spec 64 (Z.of_nat (String.length b))); [lia|]. done.
Qed.

Lemma _xid_parse_string_run (str : PyObject) (w : world) :
  _xid_parse_string str w =
  match parse_groups str with
  | Raise e => (Raise e, w)
  | Ok args => Xid_call args w
  end.
Proof.
  unfold _xid_parse_string, parse_groups, regex_match.
  destruct str as [| |s| |]; try done.
  rewrite bind_run. unfold ret at 1. cbv beta iota.
  destruct (xid_regex_match s) as [[[d eg] eb]|]; [|done].
  cbn [fst snd]. unfold PyInt_Type_call, _xid_decode64. rewrite bind_run.
  destruct (int_of_digits d) as [fid|]; [|done].
  unfold ret at 1. cbv beta iota. rewrite bind_run.
  destruct (b64decode eg) as [g|]; [|done].
  unfold ret at 1. cbv beta iota. rewrite bind_run.
  destruct (b64decode eb) as [b|]; [|done]. done.
Qed.

Lemma _xid_unparsed_from_string_run (str : PyObject) (w : world) :
  _xid_unparsed_from_string str w =
  (Ok (length (objs w)),
   mkWorld (objs w ++ [unparsed str]) (trace w ++ unparsed_stores (length (objs w)))).
Proof.
  unfold _xid_unparsed_from_string. rewrite bind_run, Xid_call_run.
  change (xid_validate [PyInt 0; PyString ""; PyString ""])
    with (Ok (0, ""%string, ""%string)).
  cbv beta iota.
  do 3 (rewrite ?bind_run, store_last;
        cbn [set_field format_id gtrid bqual prepared owner database]).
  unfold ret, unparsed, unparsed_stores. by rewrite <- !app_assoc.
Qed.

Lemma xid_from_string_run (str : PyObject) (w : world) :
  let a := (length (objs w) + length (parse_litter str))%nat in
  xid_from_string str w =
  (Ok a,
   mkWorld (objs w ++ parse_litter str ++ [xid_of_string str])
           (trace w ++ from_string_stores str a)).
Proof.
  unfold xid_from_string, or_else, xid_of_string, parse_litter, from_string_stores,
    decoded_triple.
  rewrite _xid_parse_string_run.
  destruct (parse_groups str) as [args|e].
  - rewrite Xid_call_run. destruct (xid_validate args) as [[[fid g] b]|e].
    + cbn [length app]. by rewrite Nat.add_0_r.
    + rewrite _xid_unparsed_from_string_run. cbn [objs trace length app].
      rewrite length_app. cbn [length]. by rewrite <- app_assoc.
  - rewrite _xid_unparsed_from_string_run. cbn [length app]. by rewrite Nat.add_0_r.
Qed.

Lemma string_of_uint_no_nul (d : Decimal.uint) :
  no_nul (NilEmpty.string_of_uint d) = true.
Proof.
  eapply string_forallb_impl; [|apply string_of_uint_digits].
  intros c Hc. by apply digit_plain.
Qed.

Lemma format_d_no_nul (z : Z) : no_nul (format_d z) = true.
Proof.
  unfold format_d.
  assert (forall d, no_nul (NilZero.string_of_uint d) = true) as Hu.
  { intros d. unfold NilZero.string_of_uint.
    destruct d; try done; apply (string_of_uint_no_nul (_ d)). }
  destruct (Z.to_int z) as [d|d]; simpl; [apply Hu|].
  unfold no_nul in *. simpl. apply Hu.
Qed.

Lemma tid_no_nul (z : Z) (g b : string) :
  no_nul (format_d z +:+ "_" +:+ b64encode g +:+ "_" +:+ b64encode b) = true.
Proof.
  unfold no_nul. rewrite !string_forallb_app.
  pose proof (format_d_no_nul z) as H1. pose proof (b64encode_no_nul g) as H2.
  pose proof (b64encode_no_nul b) as H3. unfold no_nul in *.
  by rewrite H1, H2, H3.
Qed.

Lemma xid_get_tid_run (w : world) (a : addr) (x : XidObject) :
  objs w !! a = Some x ->
  xid_get_tid a w =
  match format_id x, gtrid x, bqual x with
  | Py_None, PyString g, _ => (Ok (c_str g), w)
  | PyInt z, PyString g, PyString b =>
      (Ok (format_d z +:+ "_" +:+ b64encode g +:+ "_" +:+ b64encode b), w)
  | _, _, _ => (Raise (Exception PyExc_TypeError None), w)
  end.
Proof.
  intros Hx. unfold xid_get_tid, load. rewrite bind_run, Hx.
  destruct (format_id x) as [|z|s|a'|t], (gtrid x) as [|z'|g|a''|t'];
    try reflexivity;
    destruct (bqual x) as [|z''|b|a'''|t'']; try reflexivity.
  unfold _xid_encode64, format_tid, ret. rewrite !bind_run.
  by rewrite (c_str_no_nul _ (tid_no_nul z g b)).
Qed.

(** What passes the checks of [xid_init] is a triple of an integer and two
    strings within the rules, and it is assigned as given. *)
Lemma xid_validate_ok_inv (args : list PyObject) (fid : Z) (g b : string) :
  xid_validate args = Ok (fid, g, b) ->
  args = [PyInt fid; PyString g; PyString b] /\ valid_triple fid g b.
Proof.
  unfold xid_validate, PyArg_Parse_iss.
  destruct args as [|a1 [|a2 [|a3 [|a4 rest]]]]; try done.
  destruct a1 as [|z| | |]; try done; cbn [arg_i]; unfold INT_MAX, INT_MIN.
  destruct (Z.ltb_spec 2147483647 z); [done|].
  destruct (Z.ltb_spec z (-2147483648)); [done|].
  destruct a2 as [| |s2| |]; try done; cbn [arg_s]. rewrite strlen_no_nul.
  destruct (no_nul s2) eqn:N2; [|done].
  destruct a3 as [| |s3| |]; try done; cbn [arg_s]. rewrite strlen_no_nul.
  destruct (no_nul s3) eqn:N3; [|done].
  destruct (Z.ltb_spec z 0); [done|].
  destruct (Z.ltb_spec 2147483647 z); [lia|]. cbn [orb].
  rewrite !strlen_length, !c_str_no_nul, !printable_loop_spec by done.
  destruct (Z.ltb_spec 64 (Z.of_nat (String.length s2))); [done|].
  destruct (string_forallb printable s2) eqn:P2; [|done].
  destruct (Z.ltb_spec 64 (Z.of_nat (String.length s3))); [done|].
  destruct (string_forallb printable s3) eqn:P3; [|done].
  cbn [negb]. intros [= <- <- <-].
  split; [done|]. unfold valid_triple, valid_component. repeat split; try done; lia.
Qed.

Lemma store_at (a : addr) (f : field) (v : PyObject) (w : world) (x : XidObject) :
  objs w !! a = Some x ->
  store a f v w
  = (Ok tt, mkWorld (<[a := set_field f v x]> (objs w)) (trace w ++ [Store a f])).
Proof. intros Hx. unfold store. by rewrite Hx. Qed.

Lemma xid_init_run (self : addr) (args : list PyObject) (w : world) (x : XidObject) :
  objs w !! self = Some x ->
  xid_init self args w =
  match xid_validate args with
  | Raise e => (Raise e, w)
  | Ok (fid, g, b) =>
      (Ok tt,
       mkWorld (<[self := mkXid (PyInt fid) (PyString g) (PyString b)
                            (prepared x) (owner x) (database x)]> (objs w))
               (trace w ++ init_stores self))
  end.
Proof.
  intros Hx. pose proof (lookup_lt_Some _ _ _ Hx) as Hlt.
  unfold xid_init, xid_validate. rewrite bind_run. unfold lift.
  destruct (PyArg_Parse_iss args) as [[[fid g] b]|e]; [|done].
  cbn [fst snd].
  destruct ((fid <? 0) || (2147483647 <? fid)); [done|].
  destruct (64 <? strlen g); [done|].
  destruct (negb (printable_loop (c_str g))); [done|].
  destruct (64 <? strlen b); [done|].
  destruct (negb (printable_loop (c_str b))); [done|].
  rewrite bind_run, (store_at _ _ _ _ x Hx). cbv beta iota.
  rewrite bind_run.
  erewrite store_at; [|cbn [objs]; by apply list_lookup_insert_eq].
  cbv beta iota. cbn [objs trace].
  erewrite store_at;
    [|cbn [objs]; apply list_lookup_insert_eq; by rewrite length_insert].
  cbn [objs trace set_field format_id gtrid bqual prepared owner database].
  rewrite !list_insert_insert_eq. unfold init_stores. by rewrite <- !app_assoc.
Qed.

(** ** The claims *)

Lemma decoded_triple_tid (fid : Z) (g b : string) :
  valid_triple fid g b ->
  decoded_triple
    (PyString (format_d fid +:+ "_" +:+ b64encode g +:+ "_" +:+ b64encode b))
  = Some (fid, g, b).
Proof.
  intros Hv. pose proof Hv as (Hf & _).
  destruct (format_d_digits fid ltac:(lia)) as [Hd Hne].
  unfold decoded_triple, parse_groups.
  rewrite xid_regex_match_joined
    by (done || apply b64encode_no_underscore).
  rewrite int_of_digits_format_d by lia.
  rewrite !b64decode_b64encode. by rewrite xid_validate_valid.
Qed.

(** C1. For every valid triple (format_id in [0, 0x7fffffff], both
    components at most 64 bytes, every byte in [0x20, 0x7f)), the Xid built
    from the triple has a transaction id string, and [xid_from_string] of
    that string, in any state, builds one new Xid, which holds the same
    format_id, gtrid and bqual, and returns it. *)
Theorem xid_roundtrip (fid : Z) (g b : string) (w w' : world) :
  valid_triple fid g b ->
  exists (a : addr) (w1 : world) (tid : string),
    Xid_call [PyInt fid; PyString g; PyString b] w = (Ok a, w1)
    /\ xid_get_tid a w1 = (Ok tid, w1)
    /\ xid_from_string (PyString tid) w'
       = (Ok (length (objs w')),
          mkWorld (objs w' ++ [structured fid g b])
                  (trace w' ++ init_stores (length (objs w')))).
Proof.
  intros Hv.
  pose (tid := format_d fid +:+ "_" +:+ b64encode g +:+ "_" +:+ b64encode b).
  eexists _, _, tid.
  split. { rewrite Xid_call_run, xid_validate_valid by done. reflexivity. }
  split.
  { erewrite xid_get_tid_run; [|by apply list_lookup_middle]. reflexivity. }
  rewrite xid_from_string_run.
  pose proof (decoded_triple_tid fid g b Hv) as Hd. fold tid in Hd.
  unfold xid_of_string, from_string_stores. rewrite Hd.
  unfold parse_litter. unfold decoded_triple in Hd.
  destruct (parse_groups (PyString tid)) as [args|e]; [|done].
  destruct (xid_validate args) as [[[fid' g'] b']|e]; [|done].
  cbn [length app]. by rewrite Nat.add_0_r.
Qed.

Lemma xid_roundtrip_witness :
  valid_triple 1 "abc" "xyz"
  /\ exists (a : addr) (w1 : world) (tid : string),
       Xid_call [PyInt 1; PyString "abc"; PyString "xyz"] empty_world = (Ok a, w1)
       /\ xid_get_tid a w1 = (Ok tid, w1)
       /\ xid_from_string (PyString tid) empty_world
          = (Ok 0%nat, mkWorld [structured 1 "abc" "xyz"] (init_stores 0%nat)).
Proof.
  assert (valid_triple 1 "abc" "xyz") as Hv.
  { unfold valid_triple, valid_component. simpl. repeat split; lia || reflexivity. }
  split; [exact Hv|]. exact (xid_roundtrip 1 "abc" "xyz" empty_world empty_world Hv).
Defined.

(** C2. For every input string [xid_from_string] returns an Xid and never
    raises; when the structured parse [_xid_parse_string] of the string
    does not succeed, the Xid returned is the unparsed one: its gtrid is
    the input string itself, its format_id and bqual are [None]. *)
Theorem xid_from_string_never_fails (s : string) (w : world) :
  exists (a : addr) (w' : world) (x : XidObject),
    xid_from_string (PyString s) w = (Ok a, w')
    /\ objs w' !! a = Some x
    /\ match _xid_parse_string (PyString s) w with
       | (Ok a1, w1) => a = a1 /\ w' = w1
       | (Raise _, _) =>
           format_id x = Py_None /\ gtrid x = PyString s /\ bqual x = Py_None
       end.
Proof.
  eexists _, _, (xid_of_string (PyString s)).
  split; [apply xid_from_string_run|]. cbn [objs].
  split. { rewrite app_assoc. apply list_lookup_middle. by rewrite length_app. }
  rewrite _xid_parse_string_run.
  unfold xid_of_string, parse_litter, from_string_stores, decoded_triple.
  destruct (parse_groups (PyString s)) as [args|e]; [|done].
  rewrite Xid_call_run.
  destruct (xid_validate args) as [[[fid g] b]|e]; [|done].
  cbn [length app]. by rewrite Nat.add_0_r.
Qed.

(** A string that is no triple at all: the example of the specification. *)
Example xid_from_string_foreign :
  xid_from_string (PyString "some_random_prepared_name") empty_world
  = (Ok 0%nat,
     mkWorld [unparsed (PyString "some_random_prepared_name")]
             (unparsed_stores 0%nat)).
Proof. reflexivity. Qed.

(** The fallback where the decoder does fail.  When a string matches the
    pattern and the decoder refuses its middle or its last field, or the
    type refuses the decoded values (a rule of [xid_init] is broken),
    [xid_from_string] returns the unparsed Xid of the string, without
    error.  ["1_Y_eHl6"] is such a string: the decoder refuses ["Y"]. *)
Theorem xid_from_string_fallback (s d eg eb : string) (w : world) :
  xid_regex_match s = Some (d, eg, eb) ->
  (b64decode eg = None
   \/ b64decode eb = None
   \/ exists fid g b e,
        int_of_digits d = Some fid /\ b64decode eg = Some g /\ b64decode eb = Some b
        /\ (Xid_call [PyInt fid; PyString g; PyString b] w).1 = Raise e) ->
  (exists (a : addr) (w' : world),
     xid_from_string (PyString s) w = (Ok a, w')
     /\ objs w' !! a = Some (unparsed (PyString s)))
  /\ xid_from_string (PyString "1_Y_eHl6") empty_world
     = (Ok 0%nat, mkWorld [unparsed (PyString "1_Y_eHl6")] (unparsed_stores 0%nat)).
Proof.
  intros Hm Hfail. split; [|reflexivity].
  eexists _, _. split; [apply xid_from_string_run|]. cbn [objs].
  rewrite app_assoc, list_lookup_middle by (by rewrite length_app).
  f_equal. unfold xid_of_string, decoded_triple, parse_groups. rewrite Hm.
  destruct (int_of_digits d) as [fid|]; [|done].
  destruct Hfail as [->|[H|(fid' & g & b & e & [= <-] & Hg & Hb & He)]]; [done| |].
  - destruct (b64decode eg); [|done]. by rewrite H.
  - rewrite Hg, Hb. rewrite Xid_call_run in He.
    by destruct (xid_validate [PyInt fid; PyString g; PyString b]) as [[[? ?] ?]|].
Qed.

Lemma xid_from_string_fallback_witness :
  xid_regex_match "1_Y_eHl6" = Some ("1", "Y", "eHl6")%string
  /\ b64decode "Y" = None
  /\ (exists (a : addr) (w' : world),
        xid_from_string (PyString "1_Y_eHl6") empty_world = (Ok a, w')
        /\ objs w' !! a = Some (unparsed (PyString "1_Y_eHl6"))).
Proof.
  split; [reflexivity|]. split; [reflexivity|].
  apply (xid_from_string_fallback "1_Y_eHl6" "1" "Y" "eHl6" empty_world);
    [reflexivity | left; reflexivity].
Defined.

(** The decoder skips the characters that are not of the alphabet, so
    ["%%%"] decodes to the empty string, and in the empty store
    ["1_%%%_eHl6"] is the structured Xid (1, "", "xyz"). *)
Lemma xid_from_string_lenient_base64 :
  xid_regex_match "1_%%%_eHl6" = Some ("1", "%%%", "eHl6")%string
  /\ b64decode "%%%" = Some ""%string
  /\ xid_from_string (PyString "1_%%%_eHl6") empty_world
     = (Ok 0%nat, mkWorld [structured 1 "" "xyz"] (init_stores 0%nat))
  /\ structured 1 "" "xyz" <> unparsed (PyString "1_%%%_eHl6").
Proof. repeat split; try reflexivity. discriminate. Qed.

(** C3: the code at its failing input.  ["1_%%%_eHl6"] matches the
    pattern and its middle field is no base64 text, yet no decoding fails:
    [b64decode] drops the three characters and returns the empty string.
    In any state [xid_from_string] builds the structured Xid (1, "", "xyz")
    instead of the unparsed Xid of the string, and the transaction id of
    that Xid is ["1__eHl6"]: not the string the Xid was made of. *)
Theorem xid_from_string_malformed_base64 (w : world) :
  xid_regex_match "1_%%%_eHl6" = Some ("1", "%%%", "eHl6")%string
  /\ b64decode "%%%" = Some ""%string
  /\ xid_from_string (PyString "1_%%%_eHl6") w
     = (Ok (length (objs w)),
        mkWorld (objs w ++ [structured 1 "" "xyz"])
                (trace w ++ init_stores (length (objs w))))
  /\ structured 1 "" "xyz" <> unparsed (PyString "1_%%%_eHl6")
  /\ (let* a := xid_from_string (PyString "1_%%%_eHl6") in xid_get_tid a) w
     = (Ok "1__eHl6"%string,
        mkWorld (objs w ++ [structured 1 "" "xyz"])
                (trace w ++ init_stores (length (objs w))))
  /\ "1__eHl6"%string <> "1_%%%_eHl6"%string.
Proof.
  assert (xid_from_string (PyString "1_%%%_eHl6") w
          = (Ok (length (objs w)),
             mkWorld (objs w ++ [structured 1 "" "xyz"])
                     (trace w ++ init_stores (length (objs w))))) as Hrun.
  { rewrite xid_from_string_run.
    change (parse_litter (PyString "1_%%%_eHl6")) with (@nil XidObject).
    change (xid_of_string (PyString "1_%%%_eHl6")) with (structured 1 "" "xyz").
    cbn [length app]. rewrite Nat.add_0_r.
    by change (from_string_stores (PyString "1_%%%_eHl6") (length (objs w)))
      with (init_stores (length (objs w))). }
  split; [reflexivity|]. split; [reflexivity|]. split; [exact Hrun|].
  split; [discriminate|]. split; [|discriminate].
  rewrite bind_run, Hrun.
  by rewrite (xid_get_tid_run _ _ (structured 1 "" "xyz"))
    by (by apply list_lookup_middle).
Qed.

(** C4, as the code has it. [xid_get_tid] returns a C string.  When
    format_id is [None] it is gtrid up to its first NUL byte, so gtrid
    unchanged when it has none; otherwise it is the decimal format_id, the
    base64 of gtrid and the base64 of bqual, joined by single underscores,
    and (1, "abc", "xyz") gives ["1_YWJj_eHl6"]. *)
Theorem xid_get_tid_spec (w : world) (a : addr) (x : XidObject) (g : string) :
  objs w !! a = Some x ->
  gtrid x = PyString g ->
  (format_id x = Py_None -> xid_get_tid a w = (Ok (c_str g), w))
  /\ (format_id x = Py_None -> no_nul g = true -> xid_get_tid a w = (Ok g, w))
  /\ (forall (z : Z) (b : string),
        format_id x = PyInt z -> bqual x = PyString b ->
        xid_get_tid a w
        = (Ok (format_d z +:+ "_" +:+ b64encode g +:+ "_" +:+ b64encode b), w))
  /\ (let* a := Xid_call [PyInt 1; PyString "abc"; PyString "xyz"] in xid_get_tid a)
       empty_world
     = (Ok "1_YWJj_eHl6"%string, mkWorld [structured 1 "abc" "xyz"] (init_stores 0%nat)).
Proof.
  intros Hx Hg. pose proof (xid_get_tid_run w a x Hx) as Hrun. rewrite Hg in Hrun.
  split; [|split; [|split]].
  - intros Hf. by rewrite Hf in Hrun.
  - intros Hf Hn. rewrite Hf in Hrun. by rewrite c_str_no_nul in Hrun.
  - intros z b Hf Hb. by rewrite Hf, Hb in Hrun.
  - reflexivity.
Qed.

Lemma xid_get_tid_spec_witness :
  let w := mkWorld [unparsed (PyString "foo"); structured 7 "g" "b"] [] in
  objs w !! 0%nat = Some (unparsed (PyString "foo"))
  /\ gtrid (unparsed (PyString "foo")) = PyString "foo"
  /\ xid_get_tid 0%nat w = (Ok "foo"%string, w).
Proof.
  intros w. split; [reflexivity|]. split; [reflexivity|].
  exact (proj1 (proj2 (xid_get_tid_spec w 0%nat (unparsed (PyString "foo")) "foo"
                         eq_refl eq_refl)) eq_refl eq_refl).
Defined.

(** C4 as stated fails for an unparsed Xid whose gtrid has a NUL byte:
    the string returned stops before it. *)
Lemma xid_get_tid_nul_truncated :
  let s := String "a" (String NUL "b") in
  let run := (let* a := xid_from_string (PyString s) in xid_get_tid a) empty_world in
  objs run.2 !! 0%nat = Some (unparsed (PyString s))
  /\ run.1 = Ok "a"%string
  /\ run.1 <> Ok s.
Proof. repeat split; try reflexivity. discriminate. Qed.

(** C5: the code at its failing input.  [Xid(0x80000000, g, b)] fails in
    the argument parser with [OverflowError], before the test that raises
    the [ValueError] of an invalid format_id is reached; [Xid(-1, "a", "b")]
    raises that [ValueError]. *)
Theorem xid_init_format_id_overflow (g b : string) (w : world) :
  (Xid_call [PyInt 2147483648; PyString g; PyString b] w).1
  = Raise (Exception PyExc_OverflowError None)
  /\ ~ InvalidFormatId (Exception PyExc_OverflowError None)
  /\ (Xid_call [PyInt (-1); PyString "a"; PyString "b"] w).1
     = Raise (ValueError "format_id must be a non-negative 32-bit integer").
Proof.
  rewrite !Xid_call_run. repeat split; try reflexivity. unfold InvalidFormatId.
  discriminate.
Qed.

(** Within the range of a C [int] the test of [xid_init] decides: the
    [ValueError] of an invalid format_id is raised exactly below zero. *)
Lemma xid_init_format_id_int (fid : Z) (g b : string) (w : world) :
  INT_MIN <= fid <= INT_MAX -> no_nul g = true -> no_nul b = true ->
  (exists e, (Xid_call [PyInt fid; PyString g; PyString b] w).1 = Raise e
             /\ InvalidFormatId e)
  <-> fid < 0.
Proof.
  unfold INT_MIN, INT_MAX. intros Hf Hg Hb. rewrite Xid_call_run.
  unfold xid_validate, PyArg_Parse_iss, arg_i, INT_MIN, INT_MAX.
  rewrite !arg_s_no_nul by done.
  destruct (Z.ltb_spec 2147483647 fid); [lia|].
  destruct (Z.ltb_spec fid (-2147483648)); [lia|]. cbv beta iota.
  destruct (Z.ltb_spec 2147483647 fid); [lia|].
  destruct (Z.ltb_spec fid 0) as [Hneg|Hpos]; cbn [orb].
  - split; [done|]. intros _. by eexists.
  - split; [|lia]. intros (e & He & Hk). exfalso. unfold InvalidFormatId in Hk.
    subst e.
    repeat match type of He with
    | context [if ?c then _ else _] => destruct c
    end; discriminate.
Qed.




(** The slot [sq_item] on the index as it receives it: the items 0, 1
    and 2 are format_id, gtrid and bqual, the items -1, -2 and -3 are the
    same counted from the end, and any other index raises [IndexError]. *)
Theorem xid_sequence (w : world) (a : addr) (x : XidObject) (i : Z) :
  objs w !! a = Some x ->
  xid_len a w = (Ok 3, w)
  /\ xid_getitem a 0 w = (Ok (format_id x), w)
  /\ xid_getitem a 1 w = (Ok (gtrid x), w)
  /\ xid_getitem a 2 w = (Ok (bqual x), w)
  /\ xid_getitem a (-1) w = (Ok (bqual x), w)
  /\ xid_getitem a (-2) w = (Ok (gtrid x), w)
  /\ xid_getitem a (-3) w = (Ok (format_id x), w)
  /\ (i < -3 \/ 2 < i ->
      xid_getitem a i w = (Raise (IndexError "index out of range"), w)).
Proof.
  intros Hx. unfold xid_len, xid_getitem, load. rewrite !bind_run, Hx.
  repeat split. intros Hi.
  destruct (Z.ltb_spec i 0).
  - destruct (i + 3) as [|p|p] eqn:E; [lia|lia|done].
  - destruct i as [|p|p]; [lia| |lia].
    destruct p as [p|p|]; [destruct p|destruct p|]; try done; lia.
Qed.

Lemma xid_sequence_witness :
  let w := mkWorld [structured 1 "abc" "xyz"] [] in
  objs w !! 0%nat = Some (structured 1 "abc" "xyz")
  /\ xid_getitem 0%nat (-1) w = (Ok (PyString "xyz"), w)
  /\ xid_getitem 0%nat 3 w = (Raise (IndexError "index out of range"), w).
Proof.
  intros w. split; [reflexivity|].
  pose proof (xid_sequence w 0%nat (structured 1 "abc" "xyz") 3 eq_refl)
    as (_ & _ & _ & _ & H1 & _ & _ & H2).
  split; [exact H1|]. apply H2. right. lia.
Defined.

(** C10: the code at its failing input.  An Xid has length 3 and
    [xid[0]], [xid[1]], [xid[2]] are format_id, gtrid and bqual; [xid[-1]],
    [xid[-2]], [xid[-3]] are the same counted from the end.  But [xid[-4]],
    [xid[-5]] and [xid[-6]] do not raise: the interpreter has added the
    length to a negative index when [xid_getitem] adds 3 again, so they
    are bqual, gtrid and format_id once more.  An index below -6 or
    above 2 raises [IndexError]. *)
Theorem xid_subscript_spec (w : world) (a : addr) (x : XidObject) (key : Z) :
  objs w !! a = Some x ->
  xid_len a w = (Ok 3, w)
  /\ Xid_subscript a 0 w = (Ok (format_id x), w)
  /\ Xid_subscript a 1 w = (Ok (gtrid x), w)
  /\ Xid_subscript a 2 w = (Ok (bqual x), w)
  /\ Xid_subscript a (-1) w = (Ok (bqual x), w)
  /\ Xid_subscript a (-2) w = (Ok (gtrid x), w)
  /\ Xid_subscript a (-3) w = (Ok (format_id x), w)
  /\ Xid_subscript a (-4) w = (Ok (bqual x), w)
  /\ Xid_subscript a (-5) w = (Ok (gtrid x), w)
  /\ Xid_subscript a (-6) w = (Ok (format_id x), w)
  /\ (key < -6 \/ 2 < key ->
      exists e, Xid_subscript a key w = (Raise e, w)
                /\ exc_type e = PyExc_IndexError).
Proof.
  intros Hx.
  assert (forall i, xid_getitem a i w
            = match (if i <? 0 then i + 3 else i) with
              | 0 => (Ok (format_id x), w)
              | 1 => (Ok (gtrid x), w)
              | 2 => (Ok (bqual x), w)
              | _ => (Raise (IndexError "index out of range"), w)
              end) as Hitem.
  { intros i. unfold xid_getitem, load. rewrite bind_run, Hx.
    destruct (if i <? 0 then i + 3 else i) as [|[p|p|]|p]; try done; by destruct p. }
  assert (forall i, - PY_SSIZE_T_MAX - 1 <= i <= PY_SSIZE_T_MAX ->
            Xid_subscript a i w = xid_getitem a (if i <? 0 then i + 3 else i) w)
    as Hsub.
  { intros i Hi. unfold Xid_subscript, PyNumber_AsSsize_t, Xid_PySequence_GetItem.
    destruct (Z.ltb_spec i (- PY_SSIZE_T_MAX - 1)); [lia|].
    destruct (Z.ltb_spec PY_SSIZE_T_MAX i); [lia|]. cbn [orb].
    rewrite bind_run. unfold ret at 1. cbv beta iota. rewrite bind_run.
    by destruct (i <? 0). }
  split; [done|].
  do 9 (split; [by rewrite Hsub, Hitem by (unfold PY_SSIZE_T_MAX; lia)|]).
  intros Hkey.
  destruct (decide (- PY_SSIZE_T_MAX - 1 <= key <= PY_SSIZE_T_MAX)) as [Hfit|Hbig].
  - rewrite (Hsub key Hfit), Hitem.
    exists (IndexError "index out of range"). split; [|done].
    destruct (Z.ltb_spec key 0) as [Hneg|Hpos].
    + destruct (Z.ltb_spec (key + 3) 0) as [_|Hge]; [|lia].
      destruct (key + 3 + 3) as [|p|p] eqn:E; [lia|lia|done].
    + destruct (Z.ltb_spec key 0) as [|_]; [lia|].
      destruct key as [|p|p]; [lia| |lia].
      destruct p as [p|p|]; [destruct p|destruct p|]; try done; lia.
  - exists (Exception PyExc_IndexError None). split; [|done].
    unfold Xid_subscript, PyNumber_AsSsize_t. rewrite bind_run.
    destruct (Z.ltb_spec key (- PY_SSIZE_T_MAX - 1)); [done|].
    destruct (Z.ltb_spec PY_SSIZE_T_MAX key); [done|lia].
Qed.

Lemma xid_subscript_spec_witness :
  let w := mkWorld [structured 1 "abc" "xyz"] [] in
  objs w !! 0%nat = Some (structured 1 "abc" "xyz")
  /\ Xid_subscript 0%nat (-4) w = (Ok (PyString "xyz"), w)
  /\ exists e, Xid_subscript 0%nat (-7) w = (Raise e, w)
               /\ exc_type e = PyExc_IndexError.
Proof.
  intros w. split; [reflexivity|].
  pose proof (xid_subscript_spec w 0%nat (structured 1 "abc" "xyz") (-7) eq_refl)
    as (_ & _ & _ & _ & _ & _ & _ & H4 & _ & _ & Hout).
  split; [exact H4|]. apply Hout. left. lia.
Defined.

(** ** [xid_recover] *)

Lemma store_last_app (l junk : list XidObject) (x : XidObject) (tr : list event)
    (f : field) (v : PyObject) :
  store (length l + length junk)%nat f v (mkWorld (l ++ junk ++ [x]) tr)
  = (Ok tt, mkWorld (l ++ junk ++ [set_field f v x])
                    (tr ++ [Store (length l + length junk)%nat f])).
Proof.
  rewrite <- length_app, !app_assoc. apply store_last.
Qed.

(** The item read from the row is there: the assignment that follows. *)
Ltac run_store :=
  unfold ret at 1; cbv beta iota; rewrite bind_run, store_last_app; cbv beta iota.

Lemma recover_loop_step (recs : list (list PyObject)) (n i : nat)
    (xids : list (option addr)) (rec : list PyObject) (w : world) :
  recs !! i = Some rec ->
  recover_loop recs (S n) i xids w =
  match row_effect (length (objs w)) rec with
  | (Ok a, newo, evs) =>
      recover_loop recs n (S i) (<[i := Some a]> xids)
        (mkWorld (objs w ++ newo) (trace w ++ evs))
  | (Raise e, newo, evs) => (Raise e, mkWorld (objs w ++ newo) (trace w ++ evs))
  end.
Proof.
  intros Hrec. cbn [recover_loop]. unfold PySequence_GetItem, row_effect.
  rewrite bind_run, Hrec. unfold ret at 1. cbv beta iota.
  rewrite bind_run.
  destruct (rec !! 0%nat) as [gid|]; [|by rewrite !app_nil_r; destruct w].
  unfold ret at 1. cbv beta iota. rewrite bind_run, xid_from_string_run.
  cbv beta iota zeta. rewrite bind_run.
  destruct (rec !! 1%nat) as [p|]; [|done]. run_store. rewrite bind_run.
  destruct (rec !! 2%nat) as [o|]; [|by rewrite <- !app_assoc]. run_store.
  rewrite bind_run.
  destruct (rec !! 3%nat) as [d|]; [|by rewrite <- !app_assoc]. run_store.
  unfold metadata_stores. by rewrite <- !app_assoc.
Qed.

Lemma recover_loop_run (before todo : list (list PyObject))
    (xids : list (option addr)) (w : world) :
  length xids = length (before ++ todo) ->
  recover_loop (before ++ todo) (length todo) (length before) xids w =
  match rows_effect (length (objs w)) todo with
  | (Ok addrs, newo, evs) =>
      (Ok (take (length before) xids ++ (Some <$> addrs)),
       mkWorld (objs w ++ newo) (trace w ++ evs))
  | (Raise e, newo, evs) => (Raise e, mkWorld (objs w ++ newo) (trace w ++ evs))
  end.
Proof.
  revert before xids w. induction todo as [|rec rest IH]; intros before xids w Hlen.
  - cbn [recover_loop rows_effect length fmap list_fmap]. unfold ret.
    rewrite !app_nil_r in *. rewrite take_ge by lia. by destruct w.
  - cbn [length rows_effect].
    rewrite (recover_loop_step _ _ _ _ rec) by (by apply list_lookup_middle).
    destruct (row_effect (length (objs w)) rec) as [[[a|e] newo] evs]; [|done].
    replace (before ++ rec :: rest) with ((before ++ [rec]) ++ rest)
      by (by rewrite <- app_assoc).
    replace (S (length before)) with (length (before ++ [rec]))
      by (rewrite length_app; simpl; lia).
    rewrite IH.
    2:{ rewrite length_insert, Hlen, <- app_assoc. done. }
    cbn [objs trace]. rewrite length_app.
    destruct (rows_effect (length (objs w) + length newo) rest)
      as [[[addrs|e] newo'] evs']; rewrite <- !app_assoc; [|done].
    do 2 f_equal. rewrite length_app. cbn [length].
    rewrite Nat.add_1_r.
    assert (length before < length xids)%nat as Hlt.
    { rewrite Hlen, length_app. simpl. lia. }
    rewrite (take_S_r _ _ (Some a)).
    2:{ by apply list_lookup_insert_eq. }
    rewrite take_insert_ge by lia. by rewrite <- app_assoc.
Qed.

Lemma xid_recover_run (conn : connection) (w : world) :
  xid_recover conn w =
  match cursor_exn conn with
  | Some e => (Raise e, mkWorld (objs w) (trace w ++ take 1 recover_calls))
  | None =>
      match execute_exn conn recover_query with
      | Some e => (Raise e, mkWorld (objs w) (trace w ++ take 2 recover_calls))
      | None =>
          match fetchall_result conn with
          | Raise e => (Raise e, mkWorld (objs w) (trace w ++ take 3 recover_calls))
          | Ok recs =>
              match close_exn conn with
              | Some e => (Raise e, mkWorld (objs w) (trace w ++ recover_calls))
              | None =>
                  match rows_effect (length (objs w)) recs with
                  | (Ok addrs, newo, evs) =>
                      (Ok (Some <$> addrs),
                       mkWorld (objs w ++ newo) (trace w ++ recover_calls ++ evs))
                  | (Raise e, newo, evs) =>
                      (Raise e,
                       mkWorld (objs w ++ newo) (trace w ++ recover_calls ++ evs))
                  end
              end
          end
      end
  end.
Proof.
  unfold xid_recover, call_method, emit, lift, recover_calls.
  rewrite !bind_run. cbn [objs trace take].
  destruct (cursor_exn conn) as [e|]; [done|]. unfold ret at 1. cbv beta iota.
  rewrite !bind_run. cbn [objs trace].
  destruct (execute_exn conn recover_query) as [e|]; [by rewrite <- app_assoc|].
  unfold ret at 1. cbv beta iota. rewrite !bind_run. cbn [objs trace].
  destruct (fetchall_result conn) as [recs|e]; [|by rewrite <- !app_assoc].
  rewrite !bind_run. cbn [objs trace].
  destruct (close_exn conn) as [e|]; [by rewrite <- !app_assoc|].
  unfold ret at 1. cbv beta iota.
  pose proof (recover_loop_run [] recs (replicate (length recs) None)) as Hloop.
  cbn [app length] in Hloop. rewrite Hloop by apply length_replicate.
  cbn [objs trace take app].
  destruct (rows_effect (length (objs w)) recs) as [[[addrs|e] newo] evs];
    by rewrite <- !app_assoc.
Qed.

Lemma store_within_weaken (lo hi lo' hi' : nat) (evs : list event) :
  (lo' <= lo)%nat -> (hi <= hi')%nat ->
  Forall (store_within lo hi) evs -> Forall (store_within lo' hi') evs.
Proof.
  intros Hlo Hhi H. eapply Forall_impl; [exact H|].
  intros [c m args|a f]; simpl; [done|lia].
Qed.

Lemma from_string_stores_props (str : PyObject) (a : addr) :
  Forall (store_within a (S a)) (from_string_stores str a)
  /\ filter is_metadata_store (from_string_stores str a) = [].
Proof.
  unfold from_string_stores, unparsed_stores, init_stores.
  destruct (decoded_triple str); split; try done;
    repeat constructor; simpl; lia.
Qed.

Lemma metadata_stores_nodup (a : addr) (k : nat) :
  NoDup (take k (metadata_stores a)).
Proof.
  eapply sublist_NoDup; [|apply sublist_take]. unfold metadata_stores.
  repeat (apply NoDup_cons; split;
          [rewrite ?elem_of_cons, elem_of_nil; intuition discriminate|]).
  apply NoDup_nil_2.
Qed.

Lemma row_effect_props (n : nat) (rec : list PyObject) :
  let '(r, newo, evs) := row_effect n rec in
  Forall (store_within n (n + length newo)) evs
  /\ NoDup (filter is_metadata_store evs)
  /\ match r with Ok a => (n <= a < n + length newo)%nat | Raise _ => True end.
Proof.
  unfold row_effect.
  destruct (rec !! 0%nat) as [gid|]; [|by repeat constructor].
  pose proof (from_string_stores_props gid (n + length (parse_litter gid))%nat)
    as [Hw Hf].
  set (a := (n + length (parse_litter gid))%nat) in *.
  assert (forall k x,
    Forall (store_within n (n + length (parse_litter gid ++ [x])))
      (from_string_stores gid a ++ take k (metadata_stores a))
    /\ NoDup (filter is_metadata_store
                (from_string_stores gid a ++ take k (metadata_stores a)))) as Hk.
  { intros k x. rewrite length_app. cbn [length]. split.
    - apply Forall_app. split.
      + eapply store_within_weaken; [| |exact Hw]; lia.
      + apply Forall_take. unfold metadata_stores. repeat constructor; lia.
    - rewrite filter_app, Hf. cbn [app].
      apply NoDup_filter, metadata_stores_nodup. }
  destruct (rec !! 1%nat) as [p|].
  2:{ destruct (Hk 0%nat (xid_of_string gid)) as [H1 H2].
      cbn [take] in *. rewrite app_nil_r in *. done. }
  destruct (rec !! 2%nat) as [o|].
  2:{ by destruct (Hk 1%nat (set_field F_prepared p (xid_of_string gid))). }
  destruct (rec !! 3%nat) as [d|].
  2:{ by destruct
        (Hk 2%nat (set_field F_owner o (set_field F_prepared p (xid_of_string gid)))). }
  destruct (Hk 3%nat (set_field F_database d (set_field F_owner o
              (set_field F_prepared p (xid_of_string gid))))) as [H1 H2].
  split; [done|]. split; [done|]. rewrite length_app. cbn [length]. lia.
Qed.

Lemma rows_effect_props (n : nat) (recs : list (list PyObject)) :
  let '(r, newo, evs) := rows_effect n recs in
  Forall (store_within n (n + length newo)) evs
  /\ NoDup (filter is_metadata_store evs).
Proof.
  revert n. induction recs as [|rec rest IH]; intros n; cbn [rows_effect].
  { split; [constructor|apply NoDup_nil_2]. }
  pose proof (row_effect_props n rec) as H1.
  destruct (row_effect n rec) as [[[a|e] newo] evs]; [|by destruct H1 as (? & ? & _)].
  destruct H1 as (W1 & D1 & _).
  specialize (IH (n + length newo)%nat).
  destruct (rows_effect (n + length newo) rest) as [[r newo'] evs'].
  destruct IH as (W2 & D2).
  assert (Forall (store_within n (n + length (newo ++ newo'))) (evs ++ evs')
          /\ NoDup (filter is_metadata_store (evs ++ evs'))) as Hboth.
  { rewrite length_app. split.
    - apply Forall_app. split; (eapply store_within_weaken; [| |eassumption]); lia.
    - rewrite filter_app. apply NoDup_app. split; [done|]. split; [|done].
      intros ev [_ Hin1]%list_elem_of_filter [_ Hin2]%list_elem_of_filter.
      rewrite Forall_forall in W1, W2.
      specialize (W1 _ Hin1). specialize (W2 _ Hin2).
      destruct ev; simpl in *; lia. }
  by destruct r.
Qed.

(** When every row has its four columns the loop ends well: one address
    for each row, in the order of the rows, and at that address the Xid of
    column 0 with the three other columns assigned. *)
Lemma rows_effect_ok (n : nat) (recs : list (list PyObject)) :
  Forall (fun rec => 4 <= length rec)%nat recs ->
  exists addrs newo evs,
    rows_effect n recs = (Ok addrs, newo, evs)
    /\ length addrs = length recs
    /\ forall (i : nat) (rec : list PyObject),
         recs !! i = Some rec ->
         exists a gid p o d,
           addrs !! i = Some a
           /\ rec !! 0%nat = Some gid /\ rec !! 1%nat = Some p
           /\ rec !! 2%nat = Some o /\ rec !! 3%nat = Some d
           /\ (n <= a)%nat
           /\ newo !! (a - n)%nat = Some (with_metadata (xid_of_string gid) p o d).
Proof.
  revert n. induction recs as [|rec rest IH]; intros n Hwf.
  { exists [], [], []. by repeat split. }
  apply Forall_cons in Hwf as [Hrec Hrest].
  destruct rec as [|gid [|p [|o [|d more]]]]; simpl in Hrec; try lia.
  cbn [rows_effect]. unfold row_effect. cbn [lookup list_lookup].
  set (a := (n + length (parse_litter gid))%nat).
  set (x := set_field F_database d _).
  destruct (IH (n + length (parse_litter gid ++ [x]))%nat Hrest)
    as (addrs & newo & evs & -> & Hlen & Hrows).
  eexists _, _, _. split; [reflexivity|]. split; [simpl; lia|].
  intros [|i] rec' Hi.
  - injection Hi as <-. exists a, gid, p, o, d. repeat split; try done; [lia|].
    replace (a - n)%nat with (length (parse_litter gid)) by lia.
    rewrite <- app_assoc. by apply list_lookup_middle.
  - destruct (Hrows i rec' Hi) as (a' & gid' & p' & o' & d' & Ha & H0 & H1 & H2 & H3
                                   & Hle & Hnew).
    exists a', gid', p', o', d'. repeat split; try done; [lia|].
    rewrite lookup_app_r by lia. rewrite <- Hnew. f_equal. lia.
Qed.

Lemma stores_are_not_calls (lo hi : nat) (evs : list event) :
  Forall (store_within lo hi) evs -> Forall (fun e => is_call e = false) evs.
Proof.
  intros H. eapply Forall_impl; [exact H|]. by intros [c m args|a f].
Qed.

(** C7. When the four method calls succeed and every row has its four
    columns, [xid_recover] calls [execute] once, with exactly the query
    below, and returns one Xid for each row, in the order of the rows: the
    Xid at position [i] has the format_id, gtrid and bqual that
    [xid_from_string] gives for column 0 of row [i], and the columns 1, 2
    and 3 of that row as prepared, owner and database. *)
Theorem xid_recover_rows (conn : connection) (recs : list (list PyObject))
    (w : world) :
  cursor_exn conn = None ->
  execute_exn conn "SELECT gid, prepared, owner, database FROM pg_prepared_xacts;"
  = None ->
  fetchall_result conn = Ok recs ->
  close_exn conn = None ->
  Forall (fun rec => 4 <= length rec)%nat recs ->
  exists (addrs : list addr) (w' : world) (stores : list event),
    xid_recover conn w = (Ok (Some <$> addrs), w')
    /\ trace w'
       = trace w
         ++ [Call Conn "cursor" [];
             Call Curs "execute"
               [PyString "SELECT gid, prepared, owner, database FROM pg_prepared_xacts;"];
             Call Curs "fetchall" [];
             Call Curs "close" []]
         ++ stores
    /\ Forall (fun e => is_call e = false) stores
    /\ length addrs = length recs
    /\ forall (i : nat) (rec : list PyObject),
         recs !! i = Some rec ->
         exists (a : addr) (x : XidObject) (gid : PyObject),
           addrs !! i = Some a
           /\ objs w' !! a = Some x
           /\ rec !! 0%nat = Some gid
           /\ rec !! 1%nat = Some (prepared x)
           /\ rec !! 2%nat = Some (owner x)
           /\ rec !! 3%nat = Some (database x)
           /\ forall w0 : world,
                exists (a0 : addr) (w0' : world) (x0 : XidObject),
                  xid_from_string gid w0 = (Ok a0, w0')
                  /\ objs w0' !! a0 = Some x0
                  /\ format_id x = format_id x0
                  /\ gtrid x = gtrid x0
                  /\ bqual x = bqual x0.
Proof.
  intros Hc He Hf Hcl Hwf.
  destruct (rows_effect_ok (length (objs w)) recs Hwf)
    as (addrs & newo & evs & Hrows & Hlen & Hspec).
  pose proof (rows_effect_props (length (objs w)) recs) as Hprops.
  rewrite Hrows in Hprops. destruct Hprops as [Hst _].
  exists addrs, (mkWorld (objs w ++ newo) (trace w ++ recover_calls ++ evs)), evs.
  split.
  { rewrite xid_recover_run, Hc. unfold recover_query. rewrite He, Hf, Hcl.
    fold recover_query. by rewrite Hrows. }
  split; [done|]. split; [by eapply stores_are_not_calls|]. split; [done|].
  intros i rec Hi.
  destruct (Hspec i rec Hi) as (a & gid & p & o & d & Ha & H0 & H1 & H2 & H3 & Hle & Hx).
  exists a, (with_metadata (xid_of_string gid) p o d), gid.
  split; [done|]. split.
  { cbn [objs]. by rewrite lookup_app_r. }
  repeat (split; [done|]).
  intros w0. eexists _, _, (xid_of_string gid).
  split; [apply xid_from_string_run|]. cbn [objs]. split; [|done].
  rewrite app_assoc. apply list_lookup_middle. by rewrite length_app.
Qed.

Lemma xid_recover_rows_witness :
  cursor_exn example_conn = None
  /\ execute_exn example_conn
       "SELECT gid, prepared, owner, database FROM pg_prepared_xacts;" = None
  /\ fetchall_result example_conn
     = Ok [[PyString "1_YWJj_eHl6"; PyString "2024-01-01"; PyString "alice";
            PyString "db1"]]
  /\ close_exn example_conn = None
  /\ exists (addrs : list addr) (w' : world),
       xid_recover example_conn empty_world = (Ok (Some <$> addrs), w')
       /\ length addrs = 1%nat.
Proof.
  repeat (split; [reflexivity|]).
  destruct (xid_recover_rows example_conn _ empty_world eq_refl eq_refl eq_refl eq_refl)
    as (addrs & w' & stores & Hrun & _ & _ & Hlen & _).
  { repeat constructor. }
  exists addrs, w'. split; [exact Hrun|exact Hlen].
Defined.

(** The example of the specification, run. *)
Example xid_recover_example :
  xid_recover example_conn empty_world
  = (Ok [Some 0%nat],
     mkWorld [mkXid (PyInt 1) (PyString "abc") (PyString "xyz")
                (PyString "2024-01-01") (PyString "alice") (PyString "db1")]
             (recover_calls ++ init_stores 0%nat ++ metadata_stores 0%nat)).
Proof. reflexivity. Qed.

(** C8, as the code has it.  [xid_recover] calls [close] on the cursor
    exactly when [cursor], [execute] and [fetchall] have succeeded, once,
    after [fetchall] and before it reads any row: so it is called when the
    rows are read, whether they are well formed or not, and it is not when
    [execute] or [fetchall] raises. *)
Theorem xid_recover_close (conn : connection) (w : world) :
  exists evs : list event,
    trace ((xid_recover conn w).2) = trace w ++ evs
    /\ (Call Curs "close" [] ∈ evs
        <-> cursor_exn conn = None
            /\ execute_exn conn recover_query = None
            /\ exists recs, fetchall_result conn = Ok recs)
    /\ (Call Curs "close" [] ∈ evs ->
        exists stores,
          evs = [Call Conn "cursor" []; Call Curs "execute" [PyString recover_query];
                 Call Curs "fetchall" []; Call Curs "close" []] ++ stores
          /\ Forall (fun e => is_call e = false) stores).
Proof.
  rewrite xid_recover_run.
  assert (forall k, (k <= 3)%nat -> Call Curs "close" [] ∉ take k recover_calls) as Hno.
  { intros k Hk. destruct k as [|[|[|[|k]]]]; [| | |  |lia];
      cbn [take recover_calls]; rewrite ?elem_of_cons, elem_of_nil;
      intuition discriminate. }
  destruct (cursor_exn conn) as [e|].
  { eexists. split; [reflexivity|]. split; [|intros H; by apply Hno in H; [|lia]].
    split; [intros H; by apply Hno in H; [|lia]|]. by intros [[=] _]. }
  destruct (execute_exn conn recover_query) as [e|].
  { eexists. split; [reflexivity|]. split; [|intros H; by apply Hno in H; [|lia]].
    split; [intros H; by apply Hno in H; [|lia]|]. by intros (_ & [=] & _). }
  destruct (fetchall_result conn) as [recs|e].
  2:{ eexists. split; [reflexivity|]. split; [|intros H; by apply Hno in H; [|lia]].
      split; [intros H; by apply Hno in H; [|lia]|]. by intros (_ & _ & ? & [=]). }
  assert (Call Curs "close" [] ∈ recover_calls) as Hin.
  { unfold recover_calls. rewrite !elem_of_cons. auto. }
  destruct (close_exn conn) as [e|].
  { exists recover_calls. split; [reflexivity|].
    split; [split; [intros _; repeat split; eauto|done]|].
    intros _. exists []. by rewrite app_nil_r. }
  pose proof (rows_effect_props (length (objs w)) recs) as Hprops.
  destruct (rows_effect (length (objs w)) recs) as [[[addrs|e] newo] evs];
    destruct Hprops as [Hst _];
    (exists (recover_calls ++ evs); split; [reflexivity|]; split;
     [split; [intros _; repeat split; eauto|intros _; apply elem_of_app; by left]
     |intros _; exists evs; split; [done|by eapply stores_are_not_calls]]).
Qed.

(** C8 as stated fails when [execute] or [fetchall] raises: [xid_recover]
    returns the exception and has not called [close]. *)
Lemma xid_recover_no_close_on_failure :
  let db_error := Exception PyExc_DatabaseError None in
  let conn1 := mkConn None (fun _ => Some db_error) (Ok []) None in
  let conn2 := mkConn None (fun _ => None) (Raise db_error) None in
  xid_recover conn1 empty_world
  = (Raise db_error,
     mkWorld [] [Call Conn "cursor" []; Call Curs "execute" [PyString recover_query]])
  /\ xid_recover conn2 empty_world
     = (Raise db_error,
        mkWorld [] [Call Conn "cursor" []; Call Curs "execute" [PyString recover_query];
                    Call Curs "fetchall" []])
  /\ (Call Curs "close" [] ∉ trace ((xid_recover conn1 empty_world).2))
  /\ (Call Curs "close" [] ∉ trace ((xid_recover conn2 empty_world).2)).
Proof.
  repeat split; try reflexivity;
    cbn; rewrite ?elem_of_cons, elem_of_nil; intuition discriminate.
Qed.

(** ** The fields of an Xid after its construction *)

Lemma xid_getitem_pure (self : addr) (item : Z) (w : world) :
  (xid_getitem self item w).2 = w.
Proof.
  unfold xid_getitem, load. rewrite bind_run.
  destruct (objs w !! self) as [x|]; [|done].
  destruct (if item <? 0 then item + 3 else item) as [|[p|p|]|p]; try done;
    destruct p; done.
Qed.

Lemma Xid_subscript_pure (self : addr) (key : Z) (w : world) :
  (Xid_subscript self key w).2 = w.
Proof.
  unfold Xid_subscript, PyNumber_AsSsize_t, Xid_PySequence_GetItem.
  rewrite bind_run.
  destruct ((key <? - PY_SSIZE_T_MAX - 1) || (PY_SSIZE_T_MAX <? key)); [done|].
  unfold ret at 1. cbv beta iota. rewrite bind_run.
  destruct (key <? 0); unfold xid_len; rewrite ?bind_run; unfold ret;
    cbv beta iota; apply xid_getitem_pure.
Qed.

Lemma xid_getattr_pure (self : addr) (name : string) (w : world) :
  (xid_getattr self name w).2 = w.
Proof.
  unfold xid_getattr, load.
  destruct (find_member name xid_members) as [[f fl]|]; [|done].
  rewrite bind_run. by destruct (objs w !! self).
Qed.

(** No member of the table can be assigned: each is [RO]. *)
Lemma xid_setattr_refused (self : addr) (name : string) (v : PyObject) (w : world) :
  exists e, xid_setattr self name v w = (Raise e, w).
Proof.
  unfold xid_setattr.
  assert (forall f fl, find_member name xid_members = Some (f, fl) -> fl = RO) as Hro.
  { unfold xid_members. cbn [find_member]. intros f fl.
    repeat match goal with
    | |- context [if ?c then _ else _] => destruct c
    end; congruence. }
  destruct (find_member name xid_members) as [[f fl]|] eqn:E; [|by eexists].
  rewrite (Hro f fl eq_refl). by eexists.
Qed.

Lemma xid_get_tid_pure (self : addr) (w : world) : (xid_get_tid self w).2 = w.
Proof.
  unfold xid_get_tid, load. rewrite bind_run.
  destruct (objs w !! self) as [x|] eqn:E; [|done].
  pose proof (xid_get_tid_run w self x E) as Hrun.
  unfold xid_get_tid, load in Hrun. rewrite bind_run, E in Hrun. rewrite Hrun.
  destruct (format_id x), (gtrid x); try done; by destruct (bqual x).
Qed.

Lemma respects_xids_unchanged (recovering : Prop) (w : world) :
  respects_xids recovering w w.
Proof.
  exists [], []. rewrite !app_nil_r. split; [done|]. split; [done|].
  split; [|split].
  - intros a f Hin. by apply elem_of_nil in Hin.
  - apply NoDup_nil_2.
  - intros (e & Hin & _). by apply elem_of_nil in Hin.
Qed.

Lemma respects_xids_stores (recovering : Prop) (w : world)
    (newo : list XidObject) (evs : list event) :
  Forall (store_within (length (objs w)) (length (objs w) + length newo)) evs ->
  filter is_metadata_store evs = [] ->
  respects_xids recovering w (mkWorld (objs w ++ newo) (trace w ++ evs)).
Proof.
  intros Hw Hf. exists newo, evs. split; [done|]. split; [done|].
  split; [|split].
  - intros a f Hin. rewrite Forall_forall in Hw. specialize (Hw _ Hin).
    cbn [objs]. rewrite length_app. exact Hw.
  - rewrite Hf. apply NoDup_nil_2.
  - intros (e & Hin & He).
    assert (e ∈ filter is_metadata_store evs) as Hin'.
    { apply list_elem_of_filter. split; [by rewrite He|done]. }
    rewrite Hf in Hin'. by apply elem_of_nil in Hin'.
Qed.

Lemma respects_xids_from_string (recovering : Prop) (str : PyObject) (w : world) :
  respects_xids recovering w (xid_from_string str w).2.
Proof.
  rewrite xid_from_string_run. cbn [snd].
  destruct (from_string_stores_props str (length (objs w) + length (parse_litter str))%nat)
    as [Hw Hf].
  apply respects_xids_stores; [|exact Hf].
  eapply store_within_weaken; [| |exact Hw]; [lia|].
  rewrite length_app. cbn [length]. lia.
Qed.

Lemma recover_calls_no_store (k : nat) (a : addr) (f : field) :
  Store a f ∉ take k recover_calls.
Proof.
  intros Hin. eapply elem_of_sublist in Hin; [|apply sublist_take].
  unfold recover_calls in Hin. rewrite !elem_of_cons, elem_of_nil in Hin.
  by destruct Hin as [?|[?|[?|[?|[]]]]].
Qed.

Lemma recover_calls_no_metadata (k : nat) :
  filter is_metadata_store (take k recover_calls) = [].
Proof.
  unfold recover_calls.
  destruct k as [|[|[|[|k]]]]; cbn [take]; rewrite ?take_nil; reflexivity.
Qed.

Lemma respects_xids_recover (conn : connection) (w : world) :
  respects_xids True w (xid_recover conn w).2.
Proof.
  rewrite xid_recover_run.
  assert (forall k, respects_xids True w
            (mkWorld (objs w) (trace w ++ take k recover_calls))) as Hcalls.
  { intros k. exists [], (take k recover_calls). rewrite app_nil_r.
    split; [done|]. split; [done|]. split; [|split; [|done]].
    - intros a f Hin. by apply recover_calls_no_store in Hin.
    - rewrite recover_calls_no_metadata. apply NoDup_nil_2. }
  destruct (cursor_exn conn); [apply Hcalls|].
  destruct (execute_exn conn recover_query); [apply Hcalls|].
  destruct (fetchall_result conn) as [recs|]; [|apply Hcalls].
  destruct (close_exn conn); [apply (Hcalls 4%nat)|].
  pose proof (rows_effect_props (length (objs w)) recs) as Hprops.
  assert (forall newo evs,
            Forall (store_within (length (objs w)) (length (objs w) + length newo)) evs ->
            NoDup (filter is_metadata_store evs) ->
            respects_xids True w
              (mkWorld (objs w ++ newo) (trace w ++ recover_calls ++ evs))) as Hrows.
  { intros newo evs Hw Hd. exists newo, (recover_calls ++ evs).
    split; [done|]. split; [done|]. split; [|split; [|done]].
    - intros a f Hin. apply elem_of_app in Hin as [Hin|Hin].
      + by apply (recover_calls_no_store 4) in Hin.
      + rewrite Forall_forall in Hw. specialize (Hw _ Hin).
        cbn [objs]. rewrite length_app. exact Hw.
    - rewrite filter_app. exact Hd. }
  destruct (rows_effect (length (objs w)) recs) as [[[addrs|e] newo] evs];
    destruct Hprops as [Hw Hd]; apply (Hrows newo evs Hw Hd).
Qed.

Lemma respects_xids_mono (P Q : Prop) (w w' : world) :
  (P -> Q) -> respects_xids P w w' -> respects_xids Q w w'.
Proof.
  intros HPQ (newo & evs & H1 & H2 & H3 & H4 & H5).
  exists newo, evs. split; [done|]. split; [done|]. split; [done|].
  split; [done|]. intros H. by apply HPQ, H5.
Qed.

Lemma respects_xids_new (recovering : Prop) (args : list PyObject) (w : world) :
  respects_xids recovering w (Xid_call args w).2.
Proof.
  rewrite Xid_call_run. destruct (xid_validate args) as [[[fid g] b]|e]; cbn [snd].
  - apply respects_xids_stores; [|done].
    unfold init_stores. cbn [length]. repeat constructor; lia.
  - rewrite <- (app_nil_r (trace w)). by apply respects_xids_stores.
Qed.

(** An operation that only adds objects keeps the ones that exist. *)
Lemma respects_keeps (P : Prop) (reinit : addr -> Prop) (w w' : world) :
  respects_xids P w w' -> keeps_xids P reinit w w'.
Proof.
  intros (newo & evs & HO & HT & HS & HD & HR). exists evs.
  split; [done|]. split; [rewrite HO, length_app; lia|].
  split; [|split; [|done]].
  - intros a x Hx. exists x. rewrite HO, lookup_app_l by (by eapply lookup_lt_Some).
    done.
  - intros a f Hin. left. exact (HS a f Hin).
Qed.

Lemma keeps_xids_mono (P Q : Prop) (I J : addr -> Prop) (w w' : world) :
  (P -> Q) -> (forall a, I a -> J a) -> keeps_xids P I w w' -> keeps_xids Q J w w'.
Proof.
  intros HPQ HIJ (evs & HT & HL & HO & HS & HD & HR). exists evs.
  split; [done|]. split; [done|]. split; [|split; [|split; [done|]]].
  - intros a x Hx. destruct (HO a x Hx) as (x' & Hx' & Hp & Ho & Hd & Hsame).
    exists x'. repeat (split; [done|]). intros Hn. apply Hsame. intros Hi.
    by apply Hn, HIJ.
  - intros a f Hin. destruct (HS a f Hin) as [H|(H1 & H2 & H3)]; [by left|].
    right. split; [done|]. split; [by apply HIJ|done].
  - intros H. by apply HPQ, HR.
Qed.

(** One run after another: the metadata assignments of the second are to
    objects the first did not have, so no metadata field is assigned by
    both. *)
Lemma keeps_xids_trans (P Q : Prop) (I : addr -> Prop) (w w1 w2 : world) :
  keeps_xids P I w w1 -> keeps_xids Q I w1 w2 -> keeps_xids (P \/ Q) I w w2.
Proof.
  intros (evs1 & T1 & L1 & O1 & S1 & D1 & R1) (evs2 & T2 & L2 & O2 & S2 & D2 & R2).
  exists (evs1 ++ evs2).
  split; [by rewrite T2, T1, app_assoc|]. split; [lia|].
  split; [|split; [|split]].
  - intros a x Hx. destruct (O1 a x Hx) as (x1 & Hx1 & Hp1 & Ho1 & Hd1 & Hs1).
    destruct (O2 a x1 Hx1) as (x2 & Hx2 & Hp2 & Ho2 & Hd2 & Hs2).
    exists x2. split; [done|]. split; [congruence|]. split; [congruence|].
    split; [congruence|]. intros Hn. rewrite (Hs2 Hn). by apply Hs1.
  - intros a f [Hin|Hin]%elem_of_app.
    + destruct (S1 a f Hin) as [H|H]; [left; lia|by right].
    + destruct (S2 a f Hin) as [H|(H1 & H2 & H3)]; [left; lia|].
      destruct (decide (a < length (objs w))%nat); [by right|left; lia].
  - rewrite filter_app. apply NoDup_app. split; [done|]. split; [|done].
    intros e [Hm Hin1]%list_elem_of_filter [_ Hin2]%list_elem_of_filter.
    destruct e as [c m args|a f]; [done|]. cbn [is_metadata_store] in Hm.
    destruct (S1 a f Hin1) as [H1|(_ & _ & H1)];
      [|by rewrite H1 in Hm].
    destruct (S2 a f Hin2) as [H2|(_ & _ & H2)]; [lia|by rewrite H2 in Hm].
  - intros (e & [Hin|Hin]%elem_of_app & He); [left; apply R1|right; apply R2]; eauto.
Qed.

(** [xid_init] on an address that holds no object assigns nothing. *)
Lemma xid_init_dangling (self : addr) (args : list PyObject) (w : world) :
  objs w !! self = None -> exists e, xid_init self args w = (Raise e, w).
Proof.
  intros Hx. unfold xid_init. rewrite bind_run. unfold lift.
  destruct (PyArg_Parse_iss args) as [[[fid g] b]|e]; [|by eexists].
  cbn [fst snd].
  destruct ((fid <? 0) || (2147483647 <? fid)); [by eexists|].
  destruct (64 <? strlen g); [by eexists|].
  destruct (negb (printable_loop (c_str g))); [by eexists|].
  destruct (64 <? strlen b); [by eexists|].
  destruct (negb (printable_loop (c_str b))); [by eexists|].
  rewrite bind_run. unfold store at 1. rewrite Hx. by eexists.
Qed.

(** [xid_init] called again on an Xid: it assigns to this Xid only, and
    to none of its metadata fields. *)
Lemma keeps_xids_init (P : Prop) (self : addr) (args : list PyObject) (w : world) :
  keeps_xids P (fun a => a = self) w (xid_init self args w).2.
Proof.
  apply keeps_xids_mono with (P := False) (I := fun a => a = self); [done|done|].
  destruct (objs w !! self) as [x|] eqn:Hx.
  2:{ destruct (xid_init_dangling self args w Hx) as [e ->].
      apply respects_keeps, respects_xids_unchanged. }
  rewrite (xid_init_run self args w x Hx).
  destruct (xid_validate args) as [[[fid g] b]|e];
    [|apply respects_keeps, respects_xids_unchanged].
  pose proof (lookup_lt_Some _ _ _ Hx) as Hlt.
  exists (init_stores self). cbn [snd objs trace]. rewrite length_insert.
  split; [done|]. split; [done|]. split; [|split; [|split]].
  - intros a y Hy. destruct (decide (a = self)) as [->|Hne].
    + rewrite list_lookup_insert_eq by done. eexists. split; [done|].
      rewrite Hx in Hy. injection Hy as <-. by cbn.
    + rewrite list_lookup_insert_ne by done. exists y. split; [exact Hy|done].
  - intros a f Hin. right. unfold init_stores in Hin.
    rewrite !elem_of_cons, elem_of_nil in Hin.
    destruct Hin as [[= -> ->]|[[= -> ->]|[[= -> ->]|[]]]]; done.
  - apply NoDup_nil_2.
  - intros (e & Hin & He). unfold init_stores in Hin.
    rewrite !elem_of_cons, elem_of_nil in Hin.
    destruct Hin as [->|[->|[->|[]]]]; done.
Qed.

Lemma keeps_xids_perform (op : operation) (w : world) :
  keeps_xids (exists conn, op = OpRecover conn)
    (fun a => exists args, op = OpInit a args) w (perform op w).
Proof.
  destruct op as [args|self args|self|self item|self key|self name|self name v|self
                  |oxid|str|conn];
    cbn [perform];
    [|eapply keeps_xids_mono; [| |apply (keeps_xids_init False self args w)];
       [done|intros a ->; by exists args]
     |..]; apply respects_keeps.
  - apply respects_xids_new.
  - apply respects_xids_unchanged.
  - rewrite xid_getitem_pure. apply respects_xids_unchanged.
  - rewrite Xid_subscript_pure. apply respects_xids_unchanged.
  - rewrite xid_getattr_pure. apply respects_xids_unchanged.
  - destruct (xid_setattr_refused self name v w) as [e ->].
    apply respects_xids_unchanged.
  - rewrite xid_get_tid_pure. apply respects_xids_unchanged.
  - destruct oxid; cbn [xid_ensure];
      try apply respects_xids_unchanged. apply respects_xids_from_string.
  - apply respects_xids_from_string.
  - eapply respects_xids_mono; [|apply respects_xids_recover]. eauto.
Qed.

Lemma keeps_xids_perform_all (ops : list operation) (w : world) :
  keeps_xids (exists conn, OpRecover conn ∈ ops)
    (fun a => exists args, OpInit a args ∈ ops) w (perform_all ops w).
Proof.
  revert w. induction ops as [|op rest IH]; intros w; cbn [perform_all].
  - apply respects_keeps, respects_xids_unchanged.
  - set (I := fun a => exists args, OpInit a args ∈ op :: rest).
    apply keeps_xids_mono
      with (P := (exists conn, op = OpRecover conn) \/ (exists conn, OpRecover conn ∈ rest))
           (I := I); [| done |].
    { intros [[conn ->]|[conn Hin]]; exists conn;
        [apply list_elem_of_here|by apply list_elem_of_further]. }
    apply keeps_xids_trans with (w1 := perform op w).
    + eapply keeps_xids_mono; [| |apply (keeps_xids_perform op w)]; [done|].
      intros a [args ->]. exists args. apply list_elem_of_here.
    + eapply keeps_xids_mono; [| |apply (IH (perform op w))]; [done|].
      intros a [args Hin]. exists args. by apply list_elem_of_further.
Qed.

(** X14. No sequence of operations changes the metadata of an Xid that
    exists when it starts, nor any of its fields unless [xid_init] is
    called on it again: the object at its address is the same afterwards.
    Every assignment to an Xid that exists is one of [xid_init] called
    again on it, and is to none of prepared, owner and database.  The
    members are read-only: assigning an attribute is refused.  Over the
    whole sequence a metadata field of an Xid is assigned at most once, and
    only if [xid_recover] is among the operations. *)
Theorem xid_fields_write_once (ops : list operation) (w : world) :
  (exists evs : list event,
     trace (perform_all ops w) = trace w ++ evs
     /\ (forall a x, objs w !! a = Some x ->
           exists x', objs (perform_all ops w) !! a = Some x'
             /\ prepared x' = prepared x /\ owner x' = owner x
             /\ database x' = database x
             /\ ((forall args, OpInit a args ∉ ops) -> x' = x))
     /\ (forall a f, Store a f ∈ evs -> (a < length (objs w))%nat ->
           is_metadata f = false /\ exists args, OpInit a args ∈ ops)
     /\ NoDup (filter is_metadata_store evs)
     /\ ((exists e, e ∈ evs /\ is_metadata_store e = true) ->
         exists conn, OpRecover conn ∈ ops))
  /\ (forall self name v, exists e, xid_setattr self name v w = (Raise e, w)).
Proof.
  split; [|intros; apply xid_setattr_refused].
  destruct (keeps_xids_perform_all ops w) as (evs & HT & HL & HO & HS & HD & HR).
  exists evs. split; [done|]. split; [|split; [|done]].
  - intros a x Hx. destruct (HO a x Hx) as (x' & Hx' & Hp & Ho & Hd & Hsame).
    exists x'. repeat (split; [done|]). intros Hn. apply Hsame.
    intros [args Hin]. by apply (Hn args).
  - intros a f Hin Hlt. destruct (HS a f Hin) as [H|(_ & H1 & H2)]; [lia|done].
Qed.

(** C9: the code at its failing input.  [xid_init] is the [tp_init]
    slot of the type, and a caller can invoke it again on an Xid that is
    built ([xid.__init__(2, "g", "b")]).  With a triple within the rules it
    succeeds and assigns format_id, gtrid and bqual of that Xid: the fields
    the members declare read-only are changed after construction.  Its
    metadata are kept. *)
Theorem xid_init_reinitialises (self : addr) (x : XidObject) (fid : Z)
    (g b : string) (w : world) :
  objs w !! self = Some x ->
  valid_triple fid g b ->
  xid_init self [PyInt fid; PyString g; PyString b] w
  = (Ok tt,
     mkWorld (<[self := mkXid (PyInt fid) (PyString g) (PyString b)
                          (prepared x) (owner x) (database x)]> (objs w))
             (trace w ++ init_stores self)).
Proof.
  intros Hx Hv. by rewrite (xid_init_run self _ w x Hx), xid_validate_valid.
Qed.

Lemma xid_init_reinitialises_witness :
  let w := (Xid_call [PyInt 1; PyString "abc"; PyString "xyz"] empty_world).2 in
  objs w !! 0%nat = Some (structured 1 "abc" "xyz")
  /\ valid_triple 2 "g" "b"
  /\ xid_init 0%nat [PyInt 2; PyString "g"; PyString "b"] w
     = (Ok tt, mkWorld [structured 2 "g" "b"] (init_stores 0%nat ++ init_stores 0%nat)).
Proof.
  intros w.
  assert (valid_triple 2 "g" "b") as Hv.
  { unfold valid_triple, valid_component. simpl. repeat split; lia || reflexivity. }
  split; [reflexivity|]. split; [exact Hv|].
  exact (xid_init_reinitialises 0%nat (structured 1 "abc" "xyz") 2 "g" "b" w
           eq_refl Hv).
Defined.

(** The same through the operations: an Xid is built, then initialised
    again. *)
Example xid_reinitialised :
  objs (perform_all [OpNew [PyInt 1; PyString "abc"; PyString "xyz"];
                     OpInit 0%nat [PyInt 2; PyString "g"; PyString "b"]]
          empty_world)
  = [structured 2 "g" "b"].
Proof. reflexivity. Qed.

(** A run of [xid_recover] on two rows, in a store that holds an Xid: the
    Xid is untouched and each metadata field of the two new ones is
    assigned once. *)
Example xid_recover_two_rows :
  let conn := mkConn None (fun _ => None)
                (Ok [[PyString "1_YWJj_eHl6"; PyOpaque "t1"; PyString "alice";
                      PyString "db1"];
                     [PyString "foo"; PyOpaque "t2"; PyString "bob"; PyString "db2"]])
                None in
  let w := mkWorld [structured 7 "g" "b"] [] in
  perform_all [OpGetTid 0%nat; OpRecover conn; OpSetattr 1%nat "owner" Py_None] w
  = mkWorld [structured 7 "g" "b";
             mkXid (PyInt 1) (PyString "abc") (PyString "xyz")
               (PyOpaque "t1") (PyString "alice") (PyString "db1");
             mkXid Py_None (PyString "foo") Py_None
               (PyOpaque "t2") (PyString "bob") (PyString "db2")]
            (recover_calls ++ init_stores 1%nat ++ metadata_stores 1%nat
             ++ unparsed_stores 2%nat ++ metadata_stores 2%nat).
Proof. reflexivity. Qed.

(** ** Further properties of the functions *)

(** X1. [_xid_decode64] undoes [_xid_encode64] on every byte string, and
    the encoded text has no underscore and no NUL byte: it can stand
    between the underscores of a transaction id and in a C string. *)
Theorem xid_encode64_decode64 (s : string) (w : world) :
  (let* e := _xid_encode64 (PyString s) in _xid_decode64 e) w = (Ok s, w)
  /\ string_forallb not_underscore (b64encode s) = true
  /\ no_nul (b64encode s) = true.
Proof.
  split; [|split; [apply b64encode_no_underscore|apply b64encode_no_nul]].
  unfold _xid_encode64, _xid_decode64. rewrite bind_run. unfold ret at 1.
  cbv beta iota. by rewrite b64decode_b64encode.
Qed.

(** X2. The pattern matches exactly the strings made of a run of one or
    more digits and two runs of characters other than the underscore,
    joined by two underscores, and the groups are these three runs. *)
Theorem xid_regex_match_iff (s d g b : string) :
  xid_regex_match s = Some (d, g, b)
  <-> s = d +:+ "_" +:+ g +:+ "_" +:+ b
      /\ d <> EmptyString
      /\ string_forallb is_digit d = true
      /\ string_forallb not_underscore g = true
      /\ string_forallb not_underscore b = true.
Proof.
  split; [apply xid_regex_match_spec|].
  intros (-> & Hne & Hd & Hg & Hb). by apply xid_regex_match_joined.
Qed.



(** Re-initialising a recovered Xid: the triple changes, the metadata
    stays; with a bqual that has a NUL byte nothing changes. *)
Example xid_init_again :
  let x := mkXid (PyInt 1) (PyString "abc") (PyString "xyz")
             (PyString "2024-01-01") (PyString "alice") (PyString "db1") in
  let w := mkWorld [x] [] in
  xid_init 0%nat [PyInt 2; PyString "g"; PyString (String "b" (String NUL ""))] w
  = (Raise (Exception PyExc_TypeError None), w)
  /\ xid_init 0%nat [PyInt 2; PyString "g"; PyString "b"] w
     = (Ok tt,
        mkWorld [mkXid (PyInt 2) (PyString "g") (PyString "b")
                   (PyString "2024-01-01") (PyString "alice") (PyString "db1")]
                (init_stores 0%nat)).
Proof. split; reflexivity. Qed.

(** X4. [xid_ensure] raises exactly on an object that is neither an Xid
    nor a string, and then with the [TypeError] of the code and the state
    as before; an Xid is returned as it is, the state as before; a string
    goes through [xid_from_string]. *)
Theorem xid_ensure_cases (oxid : PyObject) (w : world) :
  ((exists e, (xid_ensure oxid w).1 = Raise e) <-> not_xid_nor_string oxid)
  /\ (not_xid_nor_string oxid ->
      xid_ensure oxid w = (Raise (TypeError "not a valid transaction id"), w))
  /\ (forall a, oxid = PyXid a -> xid_ensure oxid w = (Ok a, w))
  /\ (forall s, oxid = PyString s -> xid_ensure oxid w = xid_from_string oxid w).
Proof.
  split; [|split; [|split]].
  - destruct oxid as [|z|s|a|t]; cbn [xid_ensure not_xid_nor_string]; split;
      try done; try (by eexists).
    + rewrite xid_from_string_run. by intros [e [=]].
    + by intros [e [=]].
  - by destruct oxid.
  - by intros a ->.
  - by intros s ->.
Qed.

Lemma xid_ensure_cases_witness :
  not_xid_nor_string (PyInt 7)
  /\ xid_ensure (PyInt 7) empty_world
     = (Raise (TypeError "not a valid transaction id"), empty_world)
  /\ xid_ensure (PyXid 3%nat) empty_world = (Ok 3%nat, empty_world).
Proof.
  split; [exact I|]. split.
  - exact (proj1 (proj2 (xid_ensure_cases (PyInt 7) empty_world)) I).
  - exact (proj1 (proj2 (proj2 (xid_ensure_cases (PyXid 3%nat) empty_world)))
             3%nat eq_refl).
Defined.

Lemma xid_from_string_lookup (str : PyObject) (w : world) :
  exists (a : addr) (w' : world),
    xid_from_string str w = (Ok a, w')
    /\ objs w' !! a = Some (xid_of_string str)
    /\ objs w' = objs w ++ parse_litter str ++ [xid_of_string str].
Proof.
  eexists _, _. split; [apply xid_from_string_run|]. cbn [objs]. split; [|done].
  rewrite app_assoc. apply list_lookup_middle. by rewrite length_app.
Qed.

Lemma decoded_triple_valid (str : PyObject) (fid : Z) (g b : string) :
  decoded_triple str = Some (fid, g, b) -> valid_triple fid g b.
Proof.
  unfold decoded_triple. destruct (parse_groups str) as [args|e]; [|done].
  destruct (xid_validate args) as [[[fid' g'] b']|e] eqn:E; [|done].
  intros [= -> -> ->]. by destruct (xid_validate_ok_inv _ _ _ _ E).
Qed.

Lemma xid_of_string_wf (str : PyObject) : wf_xid (xid_of_string str).
Proof.
  unfold xid_of_string. destruct (decoded_triple str) as [[[fid g] b]|] eqn:E; [|done].
  unfold wf_xid. cbn. exists g, b. split; [done|]. split; [done|].
  exact (decoded_triple_valid _ _ _ _ E).
Qed.

Lemma wf_structured_inv (x : XidObject) :
  wf_xid x -> format_id x <> Py_None ->
  exists fid g b,
    format_id x = PyInt fid /\ gtrid x = PyString g /\ bqual x = PyString b
    /\ valid_triple fid g b.
Proof.
  unfold wf_xid. destruct (format_id x) as [|fid| | |]; try done.
  intros (g & b & Hg & Hb & Hv) _. by exists fid, g, b.
Qed.

(** The transaction id of a structured Xid within the rules decodes to the
    same triple, in any state. *)
Lemma structured_tid_decodes (w : world) (a : addr) (x : XidObject) :
  objs w !! a = Some x -> wf_xid x -> format_id x <> Py_None ->
  exists tid,
    xid_get_tid a w = (Ok tid, w)
    /\ decoded_triple (PyString tid) <> None
    /\ same_triple (xid_of_string (PyString tid)) x.
Proof.
  intros Hx Hwf Hf. destruct (wf_structured_inv x Hwf Hf) as (fid & g & b & F & G & B & Hv).
  eexists. split.
  { rewrite (xid_get_tid_run w a x Hx), F, G, B. reflexivity. }
  unfold xid_of_string. rewrite (decoded_triple_tid fid g b Hv).
  split; [done|]. unfold same_triple. cbn. by rewrite F, G, B.
Qed.

(** X5. A string without NUL byte that does not decode to a triple comes
    back unchanged: the transaction id of the unparsed Xid that
    [xid_from_string] makes of it is the string itself. *)
Theorem foreign_string_comes_back (s : string) (w : world) :
  no_nul s = true ->
  exists (a : addr) (w1 : world) (x : XidObject),
    xid_from_string (PyString s) w = (Ok a, w1)
    /\ objs w1 !! a = Some x
    /\ (format_id x = Py_None -> xid_get_tid a w1 = (Ok s, w1)).
Proof.
  intros Hn. destruct (xid_from_string_lookup (PyString s) w) as (a & w1 & Hrun & Hx & _).
  exists a, w1, (xid_of_string (PyString s)). split; [done|]. split; [done|].
  rewrite (xid_get_tid_run w1 a _ Hx). unfold xid_of_string.
  destruct (decoded_triple (PyString s)) as [[[fid g] b]|]; [done|].
  intros _. cbn. by rewrite c_str_no_nul.
Qed.

Lemma foreign_string_comes_back_witness :
  no_nul "some_random_prepared_name" = true
  /\ exists (a : addr) (w1 : world) (x : XidObject),
       xid_from_string (PyString "some_random_prepared_name") empty_world = (Ok a, w1)
       /\ objs w1 !! a = Some x
       /\ (format_id x = Py_None ->
           xid_get_tid a w1 = (Ok "some_random_prepared_name"%string, w1)).
Proof.
  split; [reflexivity|].
  exact (foreign_string_comes_back "some_random_prepared_name" empty_world eq_refl).
Defined.

(** X6. For a string without NUL byte, decoding, encoding and decoding
    again gives the same Xid as decoding once: the transaction id of the
    Xid made of the string decodes to an Xid with the same format_id,
    gtrid and bqual. *)
Theorem tid_decodes_to_same_xid (s : string) (w w2 : world) :
  no_nul s = true ->
  exists (a : addr) (w1 : world) (x : XidObject) (tid : string)
         (a' : addr) (w3 : world) (x' : XidObject),
    xid_from_string (PyString s) w = (Ok a, w1)
    /\ objs w1 !! a = Some x
    /\ xid_get_tid a w1 = (Ok tid, w1)
    /\ xid_from_string (PyString tid) w2 = (Ok a', w3)
    /\ objs w3 !! a' = Some x'
    /\ same_triple x' x.
Proof.
  intros Hn. destruct (xid_from_string_lookup (PyString s) w) as (a & w1 & Hrun & Hx & _).
  destruct (decoded_triple (PyString s)) as [[[fid g] b]|] eqn:E.
  - assert (format_id (xid_of_string (PyString s)) <> Py_None) as Hf.
    { unfold xid_of_string. by rewrite E. }
    destruct (structured_tid_decodes w1 a _ Hx (xid_of_string_wf _) Hf)
      as (tid & Ht & _ & Hsame).
    destruct (xid_from_string_lookup (PyString tid) w2) as (a' & w3 & Hrun' & Hx' & _).
    by exists a, w1, (xid_of_string (PyString s)), tid, a', w3,
      (xid_of_string (PyString tid)).
  - destruct (xid_from_string_lookup (PyString s) w2) as (a' & w3 & Hrun' & Hx' & _).
    exists a, w1, (xid_of_string (PyString s)), s, a', w3, (xid_of_string (PyString s)).
    repeat split; try done.
    rewrite (xid_get_tid_run w1 a _ Hx). unfold xid_of_string. rewrite E. cbn.
    by rewrite c_str_no_nul.
Qed.

Lemma tid_decodes_to_same_xid_witness :
  no_nul "01_YWJj_eHl6" = true
  /\ exists (a : addr) (w1 : world) (x : XidObject) (tid : string)
            (a' : addr) (w3 : world) (x' : XidObject),
       xid_from_string (PyString "01_YWJj_eHl6") empty_world = (Ok a, w1)
       /\ objs w1 !! a = Some x
       /\ xid_get_tid a w1 = (Ok tid, w1)
       /\ xid_from_string (PyString tid) empty_world = (Ok a', w3)
       /\ objs w3 !! a' = Some x'
       /\ same_triple x' x.
Proof.
  split; [reflexivity|].
  exact (tid_decodes_to_same_xid "01_YWJj_eHl6" empty_world empty_world eq_refl).
Defined.

(** The string itself need not come back: a format_id written with a
    leading zero is written without it, and with a NUL byte in the string
    the second decoding can differ from the first. *)
Example tid_is_normalised :
  (let* a := xid_from_string (PyString "01_YWJj_eHl6") in xid_get_tid a) empty_world
  = (Ok "1_YWJj_eHl6"%string, mkWorld [structured 1 "abc" "xyz"] (init_stores 0%nat)).
Proof. reflexivity. Qed.

Example tid_after_nul :
  let s := "1_YWJj_eHl6" +:+ String NUL "junk" in
  (xid_from_string (PyString s) empty_world).2
  = mkWorld [blank; unparsed (PyString s)] (unparsed_stores 1%nat)
  /\ xid_get_tid 1%nat (xid_from_string (PyString s) empty_world).2
     = (Ok "1_YWJj_eHl6"%string, (xid_from_string (PyString s) empty_world).2)
  /\ xid_of_string (PyString "1_YWJj_eHl6") = structured 1 "abc" "xyz".
Proof. repeat split; reflexivity. Qed.

(** X7. Two structured Xids within the rules that have the same
    transaction id have the same format_id, gtrid and bqual. *)
Theorem xid_get_tid_injective (w : world) (a a' : addr) (x x' : XidObject)
    (tid : string) :
  objs w !! a = Some x -> objs w !! a' = Some x' ->
  wf_xid x -> wf_xid x' ->
  format_id x <> Py_None -> format_id x' <> Py_None ->
  xid_get_tid a w = (Ok tid, w) -> xid_get_tid a' w = (Ok tid, w) ->
  same_triple x x'.
Proof.
  intros Hx Hx' Hwf Hwf' Hf Hf' Ht Ht'.
  destruct (structured_tid_decodes w a x Hx Hwf Hf) as (t & Hrun & _ & Hsame).
  destruct (structured_tid_decodes w a' x' Hx' Hwf' Hf') as (t' & Hrun' & _ & Hsame').
  rewrite Hrun in Ht. rewrite Hrun' in Ht'. injection Ht as ->. injection Ht' as ->.
  destruct Hsame as (F & G & B), Hsame' as (F' & G' & B').
  unfold same_triple. by rewrite <- F, <- G, <- B, F', G', B'.
Qed.

Lemma xid_get_tid_injective_witness :
  let w := mkWorld [structured 1 "abc" "xyz"; structured 1 "abc" "xyz"] [] in
  objs w !! 0%nat = Some (structured 1 "abc" "xyz")
  /\ objs w !! 1%nat = Some (structured 1 "abc" "xyz")
  /\ wf_xid (structured 1 "abc" "xyz")
  /\ xid_get_tid 0%nat w = (Ok "1_YWJj_eHl6"%string, w)
  /\ xid_get_tid 1%nat w = (Ok "1_YWJj_eHl6"%string, w)
  /\ same_triple (structured 1 "abc" "xyz") (structured 1 "abc" "xyz").
Proof.
  intros w.
  assert (wf_xid (structured 1 "abc" "xyz")) as Hwf.
  { exists "abc"%string, "xyz"%string. split; [reflexivity|]. split; [reflexivity|].
    unfold valid_triple, valid_component. simpl. repeat split; lia || reflexivity. }
  do 2 (split; [reflexivity|]). split; [exact Hwf|]. do 2 (split; [reflexivity|]).
  refine (xid_get_tid_injective w 0%nat 1%nat _ _ "1_YWJj_eHl6" eq_refl eq_refl
            Hwf Hwf _ _ eq_refl eq_refl); discriminate.
Defined.

Lemma wf_set_metadata (f : field) (v : PyObject) (x : XidObject) :
  is_metadata f = true -> wf_xid x -> wf_xid (set_field f v x).
Proof. by destruct f. Qed.

Lemma parse_litter_wf (str : PyObject) : Forall wf_xid (parse_litter str).
Proof.
  unfold parse_litter. destruct (parse_groups str) as [args|]; [|constructor].
  destruct (xid_validate args); repeat constructor.
Qed.

Lemma row_effect_wf (n : nat) (rec : list PyObject) :
  Forall wf_xid (row_effect n rec).1.2.
Proof.
  unfold row_effect.
  destruct (rec !! 0%nat) as [gid|]; [|constructor].
  pose proof (parse_litter_wf gid) as Hl. pose proof (xid_of_string_wf gid) as Hx.
  destruct (rec !! 1%nat) as [p|]; [|apply Forall_app; by repeat constructor].
  destruct (rec !! 2%nat) as [o|];
    [|apply Forall_app; split; [done|]; repeat constructor; by apply wf_set_metadata].
  destruct (rec !! 3%nat) as [d|];
    apply Forall_app; (split; [done|]); repeat constructor;
    repeat (apply wf_set_metadata; [done|]); done.
Qed.

Lemma rows_effect_wf (n : nat) (recs : list (list PyObject)) :
  Forall wf_xid (rows_effect n recs).1.2.
Proof.
  revert n. induction recs as [|rec rest IH]; intros n; cbn [rows_effect];
    [constructor|].
  pose proof (row_effect_wf n rec) as H1.
  destruct (row_effect n rec) as [[[a|e] newo] evs]; [|done].
  specialize (IH (n + length newo)%nat).
  destruct (rows_effect (n + length newo) rest) as [[[addrs|e] newo'] evs'];
    apply Forall_app; done.
Qed.


Lemma perform_new_wf (op : operation) (w : world) :
  (forall self args, op <> OpInit self args) ->
  exists newo, objs (perform op w) = objs w ++ newo /\ Forall wf_xid newo.
Proof.
  intros Hop.
  assert (exists newo, objs w = objs w ++ newo /\ Forall wf_xid newo) as Hsame.
  { exists []. by rewrite app_nil_r. }
  assert (forall str, exists newo,
            objs (xid_from_string str w).2 = objs w ++ newo /\ Forall wf_xid newo)
    as Hfrom.
  { intros str. rewrite xid_from_string_run. eexists. split; [reflexivity|].
    apply Forall_app. split; [apply parse_litter_wf|].
    repeat constructor. apply xid_of_string_wf. }
  destruct op as [args|self args|self|self item|self key|self name|self name v|self
                  |oxid|str|conn];
    cbn [perform]; [|by destruct (Hop self args)|..].
  - rewrite Xid_call_run.
    destruct (xid_validate args) as [[[fid g] b]|e] eqn:E; eexists;
      (split; [reflexivity|]); (apply Forall_cons_2; [|constructor]); [|done].
    destruct (xid_validate_ok_inv _ _ _ _ E) as [_ Hv]. by exists g, b.
  - done.
  - by rewrite xid_getitem_pure.
  - by rewrite Xid_subscript_pure.
  - by rewrite xid_getattr_pure.
  - by destruct (xid_setattr_refused self name v w) as [e ->].
  - by rewrite xid_get_tid_pure.
  - destruct oxid; cbn [xid_ensure]; first [done|apply Hfrom].
  - apply Hfrom.
  - rewrite xid_recover_run.
    destruct (cursor_exn conn); [done|].
    destruct (execute_exn conn recover_query); [done|].
    destruct (fetchall_result conn) as [recs|]; [|done].
    destruct (close_exn conn); [done|].
    pose proof (rows_effect_wf (length (objs w)) recs) as Hwf.
    destruct (rows_effect (length (objs w)) recs) as [[[addrs|e] newo] evs];
      by exists newo.
Qed.



(** X9. In a well-formed store every Xid with a format_id has a
    transaction id, and in any state [xid_from_string] of that string
    returns an Xid with the same format_id, gtrid and bqual: the round trip
    holds of every structured Xid the operations build, not only of one
    fresh from the type. *)
Theorem structured_xid_roundtrip (w w2 : world) (a : addr) (x : XidObject) :
  Forall wf_xid (objs w) ->
  objs w !! a = Some x ->
  format_id x <> Py_None ->
  exists (tid : string) (a' : addr) (w3 : world) (x' : XidObject),
    xid_get_tid a w = (Ok tid, w)
    /\ xid_from_string (PyString tid) w2 = (Ok a', w3)
    /\ objs w3 !! a' = Some x'
    /\ same_triple x' x.
Proof.
  intros Hw Hx Hf.
  assert (wf_xid x) as Hwf.
  { rewrite Forall_forall in Hw. apply Hw. by eapply list_elem_of_lookup_2. }
  destruct (structured_tid_decodes w a x Hx Hwf Hf) as (tid & Ht & _ & Hsame).
  destruct (xid_from_string_lookup (PyString tid) w2) as (a' & w3 & Hrun & Hx' & _).
  by exists tid, a', w3, (xid_of_string (PyString tid)).
Qed.

Lemma structured_xid_roundtrip_witness :
  let w := perform_all [OpRecover example_conn] empty_world in
  Forall wf_xid (objs w)
  /\ objs w !! 0%nat
     = Some (mkXid (PyInt 1) (PyString "abc") (PyString "xyz")
               (PyString "2024-01-01") (PyString "alice") (PyString "db1"))
  /\ exists (tid : string) (a' : addr) (w3 : world) (x' : XidObject),
       xid_get_tid 0%nat w = (Ok tid, w)
       /\ xid_from_string (PyString tid) w = (Ok a', w3)
       /\ objs w3 !! a' = Some x'
       /\ same_triple x'
            (mkXid (PyInt 1) (PyString "abc") (PyString "xyz")
               (PyString "2024-01-01") (PyString "alice") (PyString "db1")).
Proof.
  intros w.
  assert (Forall wf_xid (objs w)) as Hw.
  { destruct (perform_new_wf (OpRecover example_conn) empty_world)
      as (newo & Heq & Hnew); [done|].
    unfold w. cbn [perform_all]. by rewrite Heq. }
  split; [exact Hw|]. split; [reflexivity|].
  refine (structured_xid_roundtrip w w 0%nat _ Hw eq_refl _). discriminate.
Defined.

(** X10. [xid_from_string] does not fail on [None] or on an integer
    either: [match] refuses the object, the exception is cleared, and the
    Xid returned is unparsed with the object itself as gtrid; no other
    object is allocated. *)
Theorem xid_from_string_not_a_string (o : PyObject) (w : world) :
  o = Py_None \/ (exists z, o = PyInt z) ->
  xid_from_string o w
  = (Ok (length (objs w)),
     mkWorld (objs w ++ [unparsed o]) (trace w ++ unparsed_stores (length (objs w)))).
Proof.
  intros Ho. rewrite xid_from_string_run.
  assert (parse_groups o = Raise (Exception PyExc_TypeError None)) as Hp.
  { by destruct Ho as [->|[z ->]]. }
  unfold parse_litter, xid_of_string, from_string_stores, decoded_triple.
  rewrite Hp. cbn [length app]. by rewrite Nat.add_0_r.
Qed.

Lemma xid_from_string_not_a_string_witness :
  (Py_None = Py_None \/ exists z, Py_None = PyInt z)
  /\ xid_from_string Py_None empty_world
     = (Ok 0%nat, mkWorld [unparsed Py_None] (unparsed_stores 0%nat)).
Proof.
  split; [by left|].
  apply (xid_from_string_not_a_string Py_None empty_world). by left.
Defined.

Lemma row_effect_result (n : nat) (rec : list PyObject) :
  match (row_effect n rec).1.1 with
  | Ok _ => (4 <= length rec)%nat
  | Raise e => e = Exception PyExc_IndexError None /\ (length rec < 4)%nat
  end.
Proof.
  unfold row_effect.
  destruct rec as [|gid [|p [|o [|d more]]]]; cbn [lookup list_lookup fst length];
    (split; [done|lia]) || lia.
Qed.

Lemma rows_effect_result (n : nat) (recs : list (list PyObject)) :
  match (rows_effect n recs).1.1 with
  | Ok addrs => Forall (fun rec => 4 <= length rec)%nat recs
  | Raise e =>
      e = Exception PyExc_IndexError None
      /\ Exists (fun rec => length rec < 4)%nat recs
  end.
Proof.
  revert n. induction recs as [|rec rest IH]; intros n; cbn [rows_effect];
    [constructor|].
  pose proof (row_effect_result n rec) as H1.
  destruct (row_effect n rec) as [[[a|e] newo] evs]; cbn [fst] in *.
  - specialize (IH (n + length newo)%nat).
    destruct (rows_effect (n + length newo) rest) as [[[addrs|e] newo'] evs'];
      cbn [fst] in *.
    + by constructor.
    + destruct IH as [-> Hex]. split; [done|]. by apply Exists_cons_tl.
  - destruct H1 as [-> Hlt]. split; [done|]. by apply Exists_cons_hd.
Qed.

(** X11. [xid_recover] returns a list exactly when [cursor], [execute] of
    the query, [fetchall] and [close] all succeed and every row fetched has
    at least four columns. *)
Theorem xid_recover_succeeds_iff (conn : connection) (w : world) :
  (exists xids w', xid_recover conn w = (Ok xids, w'))
  <-> cursor_exn conn = None
      /\ execute_exn conn recover_query = None
      /\ close_exn conn = None
      /\ exists recs,
           fetchall_result conn = Ok recs
           /\ Forall (fun rec => 4 <= length rec)%nat recs.
Proof.
  rewrite xid_recover_run.
  destruct (cursor_exn conn) as [e|]; [split; [by intros (? & ? & [=])|by intros [[=] _]]|].
  destruct (execute_exn conn recover_query) as [e|];
    [split; [by intros (? & ? & [=])|by intros (_ & [=] & _)]|].
  destruct (fetchall_result conn) as [recs|e];
    [|split; [by intros (? & ? & [=])|by intros (_ & _ & _ & ? & [=] & _)]].
  destruct (close_exn conn) as [e|];
    [split; [by intros (? & ? & [=])|by intros (_ & _ & [=] & _)]|].
  pose proof (rows_effect_result (length (objs w)) recs) as Hres.
  destruct (rows_effect (length (objs w)) recs) as [[[addrs|e] newo] evs];
    cbn [fst] in Hres.
  - split; [|by eauto]. intros _. repeat split; try done. by exists recs.
  - split; [by intros (? & ? & [=])|].
    intros (_ & _ & _ & recs' & [= <-] & Hall). destruct Hres as [_ Hex].
    apply Exists_exists in Hex as (rec & Hin & Hlt).
    rewrite Forall_forall in Hall. specialize (Hall rec Hin). simpl in Hall. lia.
Qed.

(** X12. When [xid_recover] fails it returns no list, not a shorter one.
    The exception of the first of [cursor], [execute], [fetchall] and
    [close] that raises is the one it raises, and then no Xid has been
    built; when the four succeed and a row has fewer than four columns, it
    raises [IndexError]. *)
Theorem xid_recover_failure (conn : connection) (w : world) (e : exn) :
  (cursor_exn conn = Some e
   \/ cursor_exn conn = None /\ execute_exn conn recover_query = Some e
   \/ cursor_exn conn = None /\ execute_exn conn recover_query = None
      /\ fetchall_result conn = Raise e
   \/ cursor_exn conn = None /\ execute_exn conn recover_query = None
      /\ (exists recs, fetchall_result conn = Ok recs) /\ close_exn conn = Some e ->
   xid_recover conn w = (Raise e, mkWorld (objs w) (trace (xid_recover conn w).2)))
  /\ (forall recs,
        cursor_exn conn = None -> execute_exn conn recover_query = None ->
        fetchall_result conn = Ok recs -> close_exn conn = None ->
        Exists (fun rec => length rec < 4)%nat recs ->
        (xid_recover conn w).1 = Raise (Exception PyExc_IndexError None)).
Proof.
  rewrite xid_recover_run. split.
  - intros [H|[[H1 H2]|[(H1 & H2 & H3)|(H1 & H2 & [recs H3] & H4)]]].
    + by rewrite H.
    + by rewrite H1, H2.
    + by rewrite H1, H2, H3.
    + by rewrite H1, H2, H3, H4.
  - intros recs -> -> -> -> Hex.
    pose proof (rows_effect_result (length (objs w)) recs) as Hres.
    destruct (rows_effect (length (objs w)) recs) as [[[addrs|e'] newo] evs];
      cbn [fst] in *.
    + apply Exists_exists in Hex as (rec & Hin & Hlt).
      rewrite Forall_forall in Hres. specialize (Hres rec Hin). simpl in Hres. lia.
    + by destruct Hres as [-> _].
Qed.

Lemma xid_recover_failure_witness :
  let e := Exception PyExc_DatabaseError (Some "no such table"%string) in
  let failing := mkConn None (fun _ => Some e) (Ok []) None in
  let short := mkConn None (fun _ => None)
                 (Ok [[PyString "1_YWJj_eHl6"; PyString "2024-01-01";
                       PyString "alice"; PyString "db1"];
                      [PyString "1_YWJj_eHl6"; PyString "2024-01-01"]])
                 None in
  (cursor_exn failing = None /\ execute_exn failing recover_query = Some e)
  /\ xid_recover failing empty_world
     = (Raise e, mkWorld [] (trace (xid_recover failing empty_world).2))
  /\ (xid_recover short empty_world).1 = Raise (Exception PyExc_IndexError None).
Proof.
  intros e failing short. split; [split; reflexivity|]. split.
  - apply (proj1 (xid_recover_failure failing empty_world e)).
    right. left. split; reflexivity.
  - apply (proj2 (xid_recover_failure short empty_world e) _
             eq_refl eq_refl eq_refl eq_refl).
    apply Exists_cons_tl, Exists_cons_hd. simpl. lia.
Defined.

(** The transaction id of an Xid that holds what a string without NUL byte
    decodes to, whatever its metadata. *)
Lemma decoded_xid_tid (s : string) (w : world) (a : addr) (x : XidObject) :
  no_nul s = true ->
  objs w !! a = Some x ->
  same_triple x (xid_of_string (PyString s)) ->
  exists tid,
    xid_get_tid a w = (Ok tid, w)
    /\ (format_id x = Py_None -> tid = s)
    /\ same_triple (xid_of_string (PyString tid)) x.
Proof.
  intros Hn Hx (F & G & B). rewrite (xid_get_tid_run w a x Hx).
  unfold same_triple. rewrite F, G, B. clear F G B.
  unfold xid_of_string.
  destruct (decoded_triple (PyString s)) as [[[fid g] b]|] eqn:E;
    cbn [format_id gtrid bqual structured unparsed].
  - exists (format_d fid +:+ "_" +:+ b64encode g +:+ "_" +:+ b64encode b)%string.
    split; [reflexivity|]. split; [done|].
    by rewrite (decoded_triple_tid fid g b (decoded_triple_valid _ _ _ _ E)).
  - exists s. rewrite c_str_no_nul by done. split; [done|]. split; [done|].
    by rewrite E.
Qed.

(** X13. The Xids [xid_recover] returns lead back to their rows.  For a
    row whose column 0 is a string without NUL byte, the transaction id of
    the Xid returned for it is that string when the Xid is unparsed, and in
    any case a string that [xid_from_string] decodes to the same
    format_id, gtrid and bqual: the metadata assigned do not enter it. *)
Theorem xid_recover_tid (conn : connection) (recs : list (list PyObject))
    (w : world) :
  cursor_exn conn = None ->
  execute_exn conn recover_query = None ->
  fetchall_result conn = Ok recs ->
  close_exn conn = None ->
  Forall (fun rec => 4 <= length rec)%nat recs ->
  exists (addrs : list addr) (w' : world),
    xid_recover conn w = (Ok (Some <$> addrs), w')
    /\ forall (i : nat) (rec : list PyObject) (s : string),
         recs !! i = Some rec ->
         rec !! 0%nat = Some (PyString s) ->
         no_nul s = true ->
         exists (a : addr) (x : XidObject) (tid : string),
           addrs !! i = Some a
           /\ objs w' !! a = Some x
           /\ xid_get_tid a w' = (Ok tid, w')
           /\ (format_id x = Py_None -> tid = s)
           /\ forall w2 : world,
                exists (a' : addr) (w3 : world) (x' : XidObject),
                  xid_from_string (PyString tid) w2 = (Ok a', w3)
                  /\ objs w3 !! a' = Some x'
                  /\ same_triple x' x.
Proof.
  intros Hc He Hf Hcl Hwf.
  destruct (rows_effect_ok (length (objs w)) recs Hwf)
    as (addrs & newo & evs & Hrows & Hlen & Hspec).
  exists addrs, (mkWorld (objs w ++ newo) (trace w ++ recover_calls ++ evs)).
  split. { by rewrite xid_recover_run, Hc, He, Hf, Hcl, Hrows. }
  intros i rec s Hi H0 Hn.
  destruct (Hspec i rec Hi) as (a & gid & p & o & d & Ha & H0' & _ & _ & _ & Hle & Hx).
  rewrite H0 in H0'. injection H0' as <-.
  set (w' := mkWorld (objs w ++ newo) (trace w ++ recover_calls ++ evs)).
  assert (objs w' !! a = Some (with_metadata (xid_of_string (PyString s)) p o d))
    as Hlook.
  { cbn [objs w']. by rewrite lookup_app_r. }
  destruct (decoded_xid_tid s w' a _ Hn Hlook) as (tid & Ht & Hun & Hsame); [done|].
  exists a, (with_metadata (xid_of_string (PyString s)) p o d), tid.
  repeat (split; [done|]). intros w2.
  destruct (xid_from_string_lookup (PyString tid) w2) as (a' & w3 & Hrun & Hx' & _).
  by exists a', w3, (xid_of_string (PyString tid)).
Qed.

Lemma xid_recover_tid_witness :
  let conn := mkConn None (fun _ => None)
                (Ok [[PyString "some_random_prepared_name"; PyOpaque "t";
                      PyString "bob"; PyString "db2"]])
                None in
  cursor_exn conn = None
  /\ execute_exn conn recover_query = None
  /\ close_exn conn = None
  /\ exists (addrs : list addr) (w' : world),
       xid_recover conn empty_world = (Ok (Some <$> addrs), w')
       /\ exists (a : addr) (x : XidObject) (tid : string),
            addrs !! 0%nat = Some a
            /\ objs w' !! a = Some x
            /\ xid_get_tid a w' = (Ok tid, w')
            /\ (format_id x = Py_None -> tid = "some_random_prepared_name"%string).
Proof.
  intros conn. repeat (split; [reflexivity|]).
  destruct (xid_recover_tid conn _ empty_world eq_refl eq_refl eq_refl eq_refl)
    as (addrs & w' & Hrun & Hrows).
  { repeat constructor. }
  exists addrs, w'. split; [exact Hrun|].
  destruct (Hrows 0%nat _ "some_random_prepared_name"%string eq_refl eq_refl eq_refl)
    as (a & x & tid & Ha & Hx & Ht & Hun & _).
  by exists a, x, tid.
Defined.
